(** * koa-auth-cas: a shallow embedding of [index.js]

    The development follows the source file top-down: JavaScript values
    and the handful of language rules the code relies on (truthiness,
    property access on [undefined], string conversion), the three response
    parsers installed by the constructor, the [Cas] instance built from an
    options object, and then the handlers ([_handle], [_login], [_request],
    [_handleTicket], [handle_single_logout]) written in a small
    state-and-exception monad over the request context, the external
    session store and the log of outgoing HTTP requests.

    External collaborators that are not part of the repository (xml2js,
    Node's [url] module, the HTTP client, the clock, the session store)
    are taken as parameters. *)

From Stdlib Require Import ZArith Ascii String.
From stdpp Require Import base strings list gmap pretty.

Set Warnings "-register-all,-clear-no-such-hyp".

Open Scope string_scope.
Open Scope Z_scope.

(** ** JavaScript values *)

(** Values that flow through the code: what xml2js hands back (strings,
    objects, arrays), configuration values, and session slots.  Numbers are
    restricted to integers; no arithmetic is done on them by the code.
    Strings are byte strings (the UTF-8 encoding of the JavaScript string). *)
Inductive jsval : Type :=
| JUndefined
| JNull
| JBool (b : bool)
| JNum (n : Z)
| JString (s : string)
| JObject (fields : list (string * jsval))
| JArray (items : list jsval).

(** Exceptions the code can meet. [Fault] is a failure reported by an
    external collaborator (network, session store). *)
Inductive exn : Type :=
| TypeError
| ReferenceError (ident : string)
| Error (msg : string)
| Fault (what : string).

(** How a computation ends: it returns, it throws, or (for an awaited
    promise that nobody resolves) it never settles. *)
Inductive completion (A : Type) : Type :=
| Ret (a : A)
| Throw (e : exn)
| Pending.
Arguments Ret {A} a.
Arguments Throw {A} e.
Arguments Pending {A}.

#[export] Instance completion_ret : MRet completion := fun A a => Ret a.
#[export] Instance completion_bind : MBind completion := fun A B k m =>
  match m with
  | Ret a => k a
  | Throw e => Throw e
  | Pending => Pending
  end.

(** What an awaited call to an external collaborator (network, session
    store) settles to: fulfilled with a value or rejected. Such a call is
    taken to settle. *)
Inductive settled (A : Type) : Type :=
| Fulfilled (a : A)
| Rejected (e : exn).
Arguments Fulfilled {A} a.
Arguments Rejected {A} e.

(** [await p] *)
Definition await {A} (p : settled A) : completion A :=
  match p with
  | Fulfilled a => Ret a
  | Rejected e => Throw e
  end.

(** [try { m } catch (e) { h e }] *)
Definition try_catch {A} (m : completion A) (h : exn -> completion A) : completion A :=
  match m with
  | Throw e => h e
  | other => other
  end.

(** ToBoolean *)
Definition truthy (v : jsval) : bool :=
  match v with
  | JUndefined | JNull => false
  | JBool b => b
  | JNum n => negb (n =? 0)
  | JString s => negb (String.eqb s "")
  | JObject _ | JArray _ => true
  end.

(** [a || b] *)
Definition js_or (a b : jsval) : jsval := if truthy a then a else b.

(** ToString, as used by [+] on a string and by property keys. Array
    elements that are [undefined] or [null] print as the empty string.
    Numbers print in decimal, which is how JavaScript prints the integers
    of absolute value below 10^21; from there on it uses the exponent
    form, which this function does not produce. *)
Fixpoint to_string (v : jsval) : string :=
  match v with
  | JUndefined => "undefined"
  | JNull => "null"
  | JBool true => "true"
  | JBool false => "false"
  | JNum n => pretty n
  | JString s => s
  | JObject _ => "[object Object]"
  | JArray items =>
      (fix join (l : list jsval) : string :=
         match l with
         | [] => ""
         | x :: r =>
             let sx := match x with
                       | JUndefined | JNull => ""
                       | _ => to_string x
                       end in
             match r with
             | [] => sx
             | _ :: _ => sx +:+ "," +:+ join r
             end
         end) items
  end.

Fixpoint assoc (k : string) (fs : list (string * jsval)) : option jsval :=
  match fs with
  | [] => None
  | (k', v) :: r => if String.eqb k k' then Some v else assoc k r
  end.

(** [v.k] / [v[k]]. Reading a property of [undefined] or [null] throws a
    TypeError; a missing property reads as [undefined]. The property names
    used by the code are neither array indices nor members of
    [String.prototype], [Array.prototype] or [Object.prototype], so
    primitives and arrays answer [undefined]. *)
Definition get_prop (v : jsval) (k : string) : completion jsval :=
  match v with
  | JUndefined | JNull => Throw TypeError
  | JObject fs => Ret (default JUndefined (assoc k fs))
  | _ => Ret JUndefined
  end.

(** [o[k] = v] on an object literal: an existing key is overwritten in
    place, a new key is appended. The key "__proto__" is the accessor that
    the literal inherits from [Object.prototype]: assigning to it creates
    no property of the object. *)
Definition set_field (k : string) (v : jsval) (fs : list (string * jsval))
  : list (string * jsval) :=
  if String.eqb k "__proto__" then fs
  else
    (fix put (fs : list (string * jsval)) : list (string * jsval) :=
       match fs with
       | [] => [(k, v)]
       | (k', v') :: r =>
           if String.eqb k k' then (k, v) :: r else (k', v') :: put r
       end) fs.

(** [s.split(sep)] for a one-character separator. *)
Fixpoint split_on (sep : ascii) (s : string) : list string :=
  match s with
  | EmptyString => [""]
  | String c r =>
      if Ascii.eqb c sep then "" :: split_on sep r
      else match split_on sep r with
           | h :: t => String c h :: t
           | [] => [String c ""]
           end
  end.

(** [v.split(sep)]: only strings have the method; calling it on anything
    else is a TypeError. *)
Definition call_split (v : jsval) (sep : ascii) : completion (list string) :=
  match v with
  | JString s => Ret (split_on sep s)
  | _ => Throw TypeError
  end.

(** [v === s] for a string literal [s] *)
Definition strict_eq_str (v : jsval) (s : string) : bool :=
  match v with
  | JString s' => String.eqb s' s
  | _ => false
  end.

(** [xs[i]] on an array of strings. *)
Definition index_str (xs : list string) (i : nat) : jsval :=
  match xs !! i with
  | Some s => JString s
  | None => JUndefined
  end.

Definition dquote : string := String "034"%char "".
Definition colon : ascii := ":"%char.
Definition newline : ascii := "010"%char.

(** ** The response parsers ([_validate], lines 54-162) *)

(** The protocol versions the constructor accepts. *)
Inductive version : Type := V1 | V2 | V3 | SAML1_1.

Definition version_of_string (s : string) : option version :=
  if String.eqb s "1.0" then Some V1
  else if String.eqb s "2.0" then Some V2
  else if String.eqb s "3.0" then Some V3
  else if String.eqb s "saml1.1" then Some SAML1_1
  else None.

Definition version_string (v : version) : string :=
  match v with
  | V1 => "1.0" | V2 => "2.0" | V3 => "3.0" | SAML1_1 => "saml1.1"
  end.

(** What the parser passes to its callback: [callback(new Error(msg))] or
    [callback(null, user, attributes)]. *)
Inductive cb_args : Type :=
| CbErr (msg : string)
| CbOk (user : jsval) (attributes : jsval).

(** What xml2js's [parseString] passes to its callback. *)
Inductive parse_result : Type :=
| ParseErr
| Parsed (result : jsval).

Definition msg_failed : string := "CAS authentication failed.".
Definition msg_bad : string := "Response from CAS server was bad.".
Definition msg_failed_code (code : jsval) : string :=
  "CAS authentication failed (" +:+ to_string code +:+ ").".

(** cas_version '1.0' (lines 56-65) *)
Definition validate_v1 (body : string) : completion cb_args :=
  let lines := split_on newline body in
  if strict_eq_str (index_str lines 0) "yes" && (2 <=? length lines)%nat
  then Ret (CbOk (index_str lines 1) JUndefined)
  else if strict_eq_str (index_str lines 0) "no"
  then Ret (CbErr msg_failed)
  else Ret (CbErr msg_bad).

(** cas_version '2.0' and '3.0': the [try] block of lines 84-98 *)
Definition validate_v2_try (result : jsval) : completion cb_args :=
  sr ← get_prop result "serviceresponse";
  failure ← get_prop sr "authenticationfailure";
  if truthy failure then
    attrs ← get_prop failure "$";
    code ← get_prop attrs "code";
    Ret (CbErr (msg_failed_code code))
  else
    sr' ← get_prop result "serviceresponse";
    success ← get_prop sr' "authenticationsuccess";
    if truthy success then
      user ← get_prop success "user";
      attributes ← get_prop success "attributes";
      Ret (CbOk user attributes)
    else Ret (CbErr msg_failed).

(** cas_version '2.0' and '3.0': the callback given to [parseXML]
    (lines 80-103) *)
Definition validate_v2_parsed (p : parse_result) : completion cb_args :=
  match p with
  | ParseErr => Ret (CbErr msg_bad)
  | Parsed result =>
      try_catch (validate_v2_try result) (fun _ => Ret (CbErr msg_failed))
  end.

(** [attr.attributevalue.forEach(v => thisAttrValue.push(v._))] *)
Fixpoint collect_values (vs : list jsval) : completion (list jsval) :=
  match vs with
  | [] => Ret []
  | v :: r =>
      x ← get_prop v "_";
      xs ← collect_values r;
      Ret (x :: xs)
  end.

(** The body of [attributesArray.forEach(function (attr) {...})] *)
Definition saml_attribute (attr : jsval) (attributes : list (string * jsval))
  : completion (list (string * jsval)) :=
  av ← get_prop attr "attributevalue";
  thisAttrValue ← match av with
                   | JArray vs => xs ← collect_values vs; Ret (JArray xs)
                   | _ => get_prop av "_"
                   end;
  d ← get_prop attr "$";
  name ← get_prop d "AttributeName";
  Ret (set_field (to_string name) thisAttrValue attributes).

Fixpoint saml_attributes (attrs : list jsval) (attributes : list (string * jsval))
  : completion (list (string * jsval)) :=
  match attrs with
  | [] => Ret attributes
  | a :: r =>
      attributes' ← saml_attribute a attributes;
      saml_attributes r attributes'
  end.

(** [samlResponse.status.statuscode.$.Value] *)
Definition saml_status_value (samlResponse : jsval) : completion jsval :=
  st ← get_prop samlResponse "status";
  sc ← get_prop st "statuscode";
  d ← get_prop sc "$";
  get_prop d "Value".

(** [samlResponse.status.statuscode.$.Value.split(':')[1]] *)
Definition saml_status (samlResponse : jsval) : completion jsval :=
  value ← saml_status_value samlResponse;
  parts ← call_split value colon;
  Ret (index_str parts 1).

(** [result.envelope.body.response] *)
Definition saml_response (result : jsval) : completion jsval :=
  env ← get_prop result "envelope";
  bd ← get_prop env "body";
  get_prop bd "response".

(** cas_version 'saml1.1': the [try] block of lines 122-151 *)
Definition validate_saml_try (result : jsval) : completion cb_args :=
  samlResponse ← saml_response result;
  success ← saml_status samlResponse;
  if negb (strict_eq_str success "Success") then
    Ret (CbErr (msg_failed_code success))
  else
    assertion ← get_prop samlResponse "assertion";
    stmt ← get_prop assertion "attributestatement";
    attributesArray ← get_prop stmt "attribute";
    let attributesArray :=
      match attributesArray with
      | JArray l => l
      | other => [other]
      end in
    attributes ← saml_attributes attributesArray [];
    assertion' ← get_prop samlResponse "assertion";
    auth ← get_prop assertion' "authenticationstatement";
    subject ← get_prop auth "subject";
    nameid ← get_prop subject "nameidentifier";
    Ret (CbOk nameid (JObject attributes)).

(** cas_version 'saml1.1': the callback given to [parseXML]
    (lines 117-156) *)
Definition validate_saml_parsed (p : parse_result) : completion cb_args :=
  match p with
  | ParseErr => Ret (CbErr msg_bad)
  | Parsed result =>
      try_catch (validate_saml_try result) (fun _ => Ret (CbErr msg_failed))
  end.

(** ** The instance ([constructor], lines 39-193) *)

(** The options object; [JUndefined] stands for an absent property, and
    [None] for an absent URL. The two URLs are strings when present. *)
Record CAS_options := {
  o_cas_url : option string;
  o_service_url : option string;
  o_cas_version : jsval;
  o_renew : jsval;
  o_is_dev_mode : jsval;
  o_dev_mode_user : jsval;
  o_dev_mode_info : jsval;
  o_session_name : jsval;
  o_session_info : jsval;
  o_destroy_session : jsval;
  o_logout_redirect_url : jsval;
  o_single_logout : jsval
}.

(** What Node's [url.parse] returns, as far as the code reads it. *)
Record parsed_url := {
  protocol : string;
  hostname : string;
  port : jsval;
  pathname : string;
  path : string
}.

Record Cas := {
  cas_version : version;
  cas_url : string;
  request_client_is_http : bool;
  cas_host : string;
  cas_port : jsval;
  cas_path : string;
  service_url : string;
  renew : bool;
  is_dev_mode : bool;
  dev_mode_user : jsval;
  dev_mode_info : jsval;
  session_name : jsval;
  session_info : jsval;
  destroy_session : bool;
  logout_redirect_url : jsval;
  single_logout : bool
}.

(** [x !== undefined ? x : d] *)
Definition or_default (x d : jsval) : jsval :=
  match x with
  | JUndefined => d
  | _ => x
  end.

(** [x !== undefined ? !!x : false] *)
Definition flag (x : jsval) : bool :=
  match x with
  | JUndefined => false
  | _ => truthy x
  end.

Definition ONE_DAY : Z := 24 * 60 * 60 * 1000.

(** The authorization types ([AUTH_TYPE], lines 12-16). *)
Inductive AUTH_TYPE : Type := BOUNCE | BOUNCE_REDIRECT | BLOCK.

Definition validateUri (v : version) : string :=
  match v with
  | V1 => "/validate"
  | V2 => "/serviceValidate"
  | V3 => "/p3/serviceValidate"
  | SAML1_1 => "/samlValidate"
  end.

Section Constructor.
(** Node's [url.parse] on [cas_url] (line 165), taken to return. *)
Variable url_parse : string -> parsed_url.

Definition constructor (options : option CAS_options) : completion Cas :=
  match options with
  | None => Throw (Error "CAS Authentication was not given a valid configuration object.")
  | Some options =>
      match o_cas_url options, o_service_url options with
      | None, _ => Throw (Error "CAS Authentication requires a cas_url parameter.")
      | _, None => Throw (Error "CAS Authentication requires a service_url parameter.")
      | Some cas_url, Some service_url =>
          let cas_version := or_default (o_cas_version options) (JString "3.0") in
          let supported :=
            match cas_version with
            | JString s => version_of_string s
            | _ => None
            end in
          match supported with
          | None =>
              Throw (Error ("The supplied CAS version (" +:+ dquote
                            +:+ to_string cas_version +:+ dquote
                            +:+ ") is not supported."))
          | Some v =>
              let parsed_cas_url := url_parse cas_url in
              let is_http := String.eqb (protocol parsed_cas_url) "http:" in
              Ret {| cas_version := v;
                     cas_url := cas_url;
                     request_client_is_http := is_http;
                     cas_host := hostname parsed_cas_url;
                     cas_port := js_or (port parsed_cas_url)
                                   (if is_http then JNum 80 else JNum 443);
                     cas_path := pathname parsed_cas_url;
                     service_url := service_url;
                     renew := flag (o_renew options);
                     is_dev_mode := flag (o_is_dev_mode options);
                     dev_mode_user := or_default (o_dev_mode_user options) (JString "");
                     dev_mode_info := or_default (o_dev_mode_info options) (JObject []);
                     session_name := or_default (o_session_name options) (JString "cas_user");
                     session_info :=
                       match v, o_session_info options with
                       | V1, _ => JBool false
                       | _, JUndefined => JBool false
                       | _, info => info
                       end;
                     destroy_session := flag (o_destroy_session options);
                     logout_redirect_url := o_logout_redirect_url options;
                     single_logout := flag (o_single_logout options) |}
          end
      end
  end.
End Constructor.

(** ** The request context and the world around a handler *)

(** What the handlers did to the response: assignments to [ctx.status] /
    [ctx.response.status], assignments to [ctx.body], calls of
    [ctx.redirect]. *)
Record Response := {
  status : option Z;
  body : option string;
  redirect_to : option jsval
}.

(** [ctx.session]: the slots read and written by key, and the key of the
    session in the external store ([ctx.session._sessCtx.externalKey]).
    Slot names are taken not to collide with koa-session's own members. *)
Record Session := {
  slots : gmap string jsval;
  externalKey : jsval
}.

(** The koa context: [ctx.url], [ctx.query] (always an object in koa),
    [ctx.request.body], [ctx.session], and the response. *)
Record koa_ctx := {
  url : string;
  query : list (string * jsval);
  request_body : jsval;
  session : Session;
  response : Response
}.

(** [requestOptions] handed to [http.request] / [https.request]. *)
Record request_options := {
  ro_host : string;
  ro_port : jsval;
  ro_method : option string;
  ro_path : option string;
  ro_headers : list (string * jsval)
}.

(** Calls made on the HTTP client, in order. *)
Inductive http_event : Type :=
| Opened (o : request_options)
| Wrote (data : string)
| Ended.

(** The external session store ([ctx.session._sessCtx.store]): the three
    operations of koa-session's store contract, [get(key, maxAge, opts)],
    [set(key, sess, maxAge, opts)] and [destroy(key)]. Each may fail. *)
Class SessionStore (St : Type) := {
  store_get : jsval -> Z -> jsval -> St -> settled jsval * St;
  store_set : jsval -> jsval -> Z -> jsval -> St -> settled unit * St;
  store_destroy : jsval -> St -> settled unit * St
}.

Record world (St : Type) := World {
  ctx : koa_ctx;
  store : St;
  http_log : list http_event;
  next_calls : nat
}.
Arguments World {St}.
Arguments ctx {St}.
Arguments store {St}.
Arguments http_log {St}.
Arguments next_calls {St}.

(** Handlers run in a state-and-exception monad over the world: effects
    made before a throw stay made. *)
Definition M (St A : Type) : Type := world St -> completion A * world St.

#[export] Instance M_ret {St} : MRet (M St) := fun A a w => (Ret a, w).
#[export] Instance M_bind {St} : MBind (M St) := fun A B k m w =>
  match m w with
  | (Ret a, w') => k a w'
  | (Throw e, w') => (Throw e, w')
  | (Pending, w') => (Pending, w')
  end.

Module Eff.
Section Eff.
Context {St : Type}.

Definition lift {A} (c : completion A) : M St A := fun w => (c, w).
Definition read {A} (f : koa_ctx -> A) : M St A := fun w => (Ret (f (ctx w)), w).
Definition update (f : koa_ctx -> koa_ctx) : M St unit := fun w =>
  (Ret tt, World (f (ctx w)) (store w) (http_log w) (next_calls w)).

(** [try { m } catch (e) { h e }] *)
Definition try_catch {A} (m : M St A) (h : exn -> M St A) : M St A := fun w =>
  match m w with
  | (Throw e, w') => h e w'
  | other => other
  end.

(** An [async] function called without being awaited (a callback given to
    a library): what it throws becomes a rejection nobody observes. The
    result says whether it called [resolve()]. *)
Definition detached (m : M St bool) : M St bool := fun w =>
  match m w with
  | (Ret b, w') => (Ret b, w')
  | (Throw _, w') => (Ret false, w')
  | (Pending, w') => (Ret false, w')
  end.

(** [await new Promise((resolve, reject) => executor)], for an executor
    that never calls [reject]: a throw of the executor rejects the
    promise, and a promise nobody resolves never settles. *)
Definition await_new_promise (executor : M St bool) : M St unit := fun w =>
  match executor w with
  | (Ret true, w') => (Ret tt, w')
  | (Ret false, w') => (Pending, w')
  | (Throw e, w') => (Throw e, w')
  | (Pending, w') => (Pending, w')
  end.

(** [ctx.status = n] *)
Definition set_status (n : Z) : M St unit :=
  update (fun c =>
    {| url := url c; query := query c; request_body := request_body c;
       session := session c;
       response := {| status := Some n; body := body (response c);
                      redirect_to := redirect_to (response c) |} |}).

(** [ctx.body = s] *)
Definition set_body (s : string) : M St unit :=
  update (fun c =>
    {| url := url c; query := query c; request_body := request_body c;
       session := session c;
       response := {| status := status (response c); body := Some s;
                      redirect_to := redirect_to (response c) |} |}).

(** [ctx.redirect(target)] *)
Definition redirect (target : jsval) : M St unit :=
  update (fun c =>
    {| url := url c; query := query c; request_body := request_body c;
       session := session c;
       response := {| status := status (response c); body := body (response c);
                      redirect_to := Some target |} |}).

(** [ctx.session[k]] *)
Definition session_get (k : string) : M St jsval :=
  read (fun c => default JUndefined (slots (session c) !! k)).

(** [ctx.session[k] = v] *)
Definition session_set (k : string) (v : jsval) : M St unit :=
  update (fun c =>
    {| url := url c; query := query c; request_body := request_body c;
       session := {| slots := <[k := v]> (slots (session c));
                     externalKey := externalKey (session c) |};
       response := response c |}).

(** [ctx.query.k] *)
Definition query_get (k : string) : M St jsval :=
  read (fun c => default JUndefined (assoc k (query c))).

(** [await next()] *)
Definition call_next : M St unit := fun w =>
  (Ret tt, World (ctx w) (store w) (http_log w) (S (next_calls w))).

Definition http (e : http_event) : M St unit := fun w =>
  (Ret tt, World (ctx w) (store w) (http_log w ++ [e]) (next_calls w)).

(** The world a computation leaves behind. *)
Definition after {A} (m : M St A) (w : world St) : world St := (m w).2.

(** [await sessionStore.op(...)] *)
Definition on_store {A} (op : St -> settled A * St) : M St A := fun w =>
  (await (op (store w)).1,
   World (ctx w) (op (store w)).2 (http_log w) (next_calls w)).
End Eff.
End Eff.

(** [attributes || {}] (line 515): the attribute map kept in the session. *)
Definition attribute_map (attributes : jsval) : jsval :=
  js_or attributes (JObject []).

(** [ctx.session[this.session_name]]: the identity slot. *)
Definition identity_slot (this : Cas) (c : koa_ctx) : jsval :=
  default JUndefined (slots (session c) !! to_string (session_name this)).

(** [ctx.query.ticket] *)
Definition query_ticket (c : koa_ctx) : jsval :=
  default JUndefined (assoc "ticket" (query c)).

(** ** Identifier resolution *)

(** Names bound at module level: the [const]/[let] declarations, the
    function declarations, the implicit global [ONE_DAY], and the Node
    globals the file uses. Module objects have no interest as values. *)
Definition module_scope : list (string * jsval) :=
  (fun x => (x, JObject [])) <$>
    ["url"; "http"; "https"; "parseXML"; "XMLprocessors"; "ONE_DAY";
     "AUTH_TYPE"; "_validateUri"; "_validate"; "_handle"; "_login";
     "_request"; "_handleTicket"; "module"; "exports"; "require";
     "console"; "Buffer"; "Date"; "Promise"; "Error"].

(** A free identifier that no enclosing scope binds is a ReferenceError. *)
Definition lookup_ident (scope : list (string * jsval)) (x : string)
  : completion jsval :=
  match assoc x scope with
  | Some v => Ret v
  | None => Throw (ReferenceError x)
  end.

(** ** The handlers (lines 200-530) *)

Section Handlers.
Context {St : Type} {store_ops : SessionStore St}.

(** xml2js's [parseString] with the options the code passes. *)
Variable parseXML : jsval -> parse_result.
(** Node's [url.parse] and [url.format({pathname, query})]. *)
Variable url_parse : string -> parsed_url.
Variable url_format : string -> list (string * jsval) -> string.
(** The CAS server and the network: what comes back for the calls made on
    the HTTP client (the full body, or an ['error'] event). *)
Variable http_respond : list http_event -> settled string.
(** [new Date()]: [getTime()] and [toISOString()]. *)
Variable now_ms : Z.
Variable now_iso : string.
(** The parser currently held by the module-level variables
    [_validateUri] and [_validate]: the one installed by the most recent
    constructor call. *)
Variable adapter : version.

Import Eff.

(** [_validate(body, callback)]: the arguments the callback receives. *)
Definition _validate (body : string) : completion cb_args :=
  match adapter with
  | V1 => validate_v1 body
  | V2 | V3 => validate_v2_parsed (parseXML (JString body))
  | SAML1_1 => validate_saml_parsed (parseXML (JString body))
  end.

(** [_login] (lines 385-406) *)
Definition _login (this : Cas) : M St unit :=
  returnTo ← query_get "returnTo";
  u ← read url;
  session_set "cas_return_to" (js_or returnTo (JString (path (url_parse u))));;
  let query :=
    ("service", JString (service_url this +:+ pathname (url_parse u)))
      :: (if renew this then [("renew", JBool true)] else []) in
  redirect (JString (cas_url this +:+ url_format "/login" query)).

(** The scope of the arrow functions inside [_request]. *)
Definition _request_scope : list (string * jsval) :=
  [("requestOptions", JObject []); ("resolve", JObject []);
   ("reject", JObject []); ("request", JObject [])] ++ module_scope.

(** [_request] (lines 408-434): the promise is awaited by the caller. A
    throw inside the executor rejects it. *)
Definition _request (this : Cas) (requestOptions : request_options) : M St string :=
  http (Opened requestOptions);;
  match cas_version this with
  | SAML1_1 =>
      post_data ← lift (lookup_ident _request_scope "post_data");
      http (Wrote (to_string post_data))
  | _ => mret tt
  end;;
  http Ended;;
  log ← (fun w => (Ret (http_log w), w));
  lift (await (http_respond log)).

(** The scope of [_handleTicket]'s body: parameters and hoisted [var]s. *)
Definition _handleTicket_scope : list (string * jsval) :=
  [("ctx", JObject []); ("next", JObject []); ("requestOptions", JObject []);
   ("now", JObject []); ("post_data", JUndefined)] ++ module_scope.

(** The SOAP envelope of lines 456-468. *)
Definition saml_envelope (req_host req_ticket : jsval) : string :=
  "<?xml version=" +:+ dquote +:+ "1.0" +:+ dquote +:+ " encoding=" +:+ dquote
    +:+ "utf-8" +:+ dquote +:+ "?>" +:+ String newline ""
  +:+ "<SOAP-ENV:Envelope xmlns:SOAP-ENV=" +:+ dquote
    +:+ "http://schemas.xmlsoap.org/soap/envelope/" +:+ dquote +:+ ">"
    +:+ String newline ""
  +:+ "  <SOAP-ENV:Header/>" +:+ String newline ""
  +:+ "  <SOAP-ENV:Body>" +:+ String newline ""
  +:+ "    <samlp:Request xmlns:samlp=" +:+ dquote
    +:+ "urn:oasis:names:tc:SAML:1.0:protocol" +:+ dquote
    +:+ " MajorVersion=" +:+ dquote +:+ "1" +:+ dquote +:+ String newline ""
  +:+ "      MinorVersion=" +:+ dquote +:+ "1" +:+ dquote
    +:+ " RequestID=" +:+ dquote +:+ "_" +:+ to_string req_host +:+ "."
    +:+ pretty now_ms +:+ dquote +:+ String newline ""
  +:+ "      IssueInstant=" +:+ dquote +:+ now_iso +:+ dquote +:+ ">"
    +:+ String newline ""
  +:+ "      <samlp:AssertionArtifact>" +:+ String newline ""
  +:+ "        " +:+ to_string req_ticket +:+ String newline ""
  +:+ "      </samlp:AssertionArtifact>" +:+ String newline ""
  +:+ "    </samlp:Request>" +:+ String newline ""
  +:+ "  </SOAP-ENV:Body>" +:+ String newline ""
  +:+ "</SOAP-ENV:Envelope>".

(** Lines 440-482: building [requestOptions]. *)
Definition build_request (this : Cas) : M St request_options :=
  u ← read url;
  match cas_version this with
  | V1 | V2 | V3 =>
      ticket ← query_get "ticket";
      mret {| ro_host := cas_host this; ro_port := cas_port this;
              ro_method := Some "GET";
              ro_path := Some (url_format (cas_path this +:+ validateUri adapter)
                [("service", JString (service_url this +:+ pathname (url_parse u)));
                 ("ticket", ticket)]);
              ro_headers := [] |}
  | SAML1_1 =>
      req ← lift (lookup_ident _handleTicket_scope "req");
      req_host ← lift (get_prop req "host");
      req' ← lift (lookup_ident _handleTicket_scope "req");
      req_query ← lift (get_prop req' "query");
      req_ticket ← lift (get_prop req_query "ticket");
      let post_data := saml_envelope req_host req_ticket in
      mret {| ro_host := cas_host this; ro_port := cas_port this;
              ro_method := Some "POST";
              ro_path := Some (url_format (cas_path this +:+ validateUri adapter)
                [("TARGET", JString (service_url this +:+ pathname (url_parse u)));
                 ("ticket", JString "")]);
              ro_headers := [("Content-Type", JString "text/xml");
                             ("Content-Length", JNum (Z.of_nat (String.length post_data)))] |}
  end.

(** The callback given to [_validate] (lines 490-524); the result says
    whether [resolve()] was called. *)
Definition on_validated (this : Cas) (args : cb_args) : M St bool :=
  match args with
  | CbErr _ =>
      set_status 401;;
      mret true
  | CbOk user attributes =>
      try_catch
        (key ← read (fun c => externalKey (session c));
         (if single_logout this then
            ticket ← query_get "ticket";
            on_store (store_set ticket (JObject [("key", key)]) ONE_DAY
                        (JObject [("changed", JBool true)]))
          else mret tt);;
         session_set (to_string (session_name this)) user;;
         (if truthy (session_info this) then
            session_set (to_string (session_info this)) (attribute_map attributes)
          else mret tt);;
         cas_return_to ← session_get "cas_return_to";
         redirect cas_return_to;;
         mret true)
        (fun e => mret true)
  end.

(** [_handleTicket] (lines 439-530) *)
Definition _handleTicket (this : Cas) : M St unit :=
  requestOptions ← build_request this;
  try_catch
    (body ← _request this requestOptions;
     await_new_promise
       (args ← lift (_validate body);
        detached (on_validated this args)))
    (fun err => set_status 401).

(** [_handle] (lines 350-380) *)
Definition _handle (this : Cas) (authType : AUTH_TYPE) : M St unit :=
  user ← session_get (to_string (session_name this));
  if truthy user then
    match authType with
    | BOUNCE_REDIRECT =>
        redirectTo ← query_get "redirectTo";
        redirect redirectTo
    | _ => call_next
    end
  else if is_dev_mode this then
    session_set (to_string (session_name this)) (dev_mode_user this);;
    session_set (to_string (session_info this)) (dev_mode_info this);;
    call_next
  else
    match authType with
    | BLOCK => set_status 401
    | _ =>
        ticket ← query_get "ticket";
        if truthy ticket then _handleTicket this else _login this
    end.

Definition bounce (this : Cas) : M St unit := _handle this BOUNCE.
Definition bounce_redirect (this : Cas) : M St unit := _handle this BOUNCE_REDIRECT.
Definition block (this : Cas) : M St unit := _handle this BLOCK.

(** The reaction to a failed store operation in [handle_single_logout]:
    [ctx.response.status = 202; resolve()]. *)
Definition downgrade : exn -> M St bool := fun _ =>
  set_status 202;;
  mret true.

(** The callback given to [parseXML] in [handle_single_logout]
    (lines 284-339); the result says whether [resolve()] was called. *)
Definition on_logout_parsed (p : parse_result) : M St bool :=
  match p with
  | ParseErr => lift (Throw (Error "SLO request from CAS server was bad."))
  | Parsed result =>
      logoutrequest ← lift (get_prop result "logoutrequest");
      st ← lift (get_prop logoutrequest "sessionindex");
      try_catch
        (sessionResult ← on_store (store_get st ONE_DAY (JObject []));
         found ← (if truthy sessionResult
                  then k ← lift (get_prop sessionResult "key"); mret (truthy k)
                  else mret false);
         if (found : bool) then
           try_catch
             (key ← lift (get_prop sessionResult "key");
              on_store (store_destroy key);;
              try_catch
                (on_store (store_destroy st);;
                 mret true)
                downgrade)
             downgrade
         else
           try_catch
             (on_store (store_destroy st);;
              mret true)
             downgrade)
        downgrade
  end.

(** [handle_single_logout] (lines 254-344) *)
Definition handle_single_logout (this : Cas) : M St unit :=
  if negb (single_logout this) then set_body "ok"
  else
    posted ← read request_body;
    logoutRequest ← lift (get_prop posted "logoutRequest");
    await_new_promise (detached (on_logout_parsed (parseXML logoutRequest)));;
    set_body "ok".

(** *** The decision table of [_handle], row by row *)

(** The validation request of versions 1.0, 2.0 and 3.0. *)
Definition get_request (this : Cas) (c : koa_ctx) : request_options :=
  {| ro_host := cas_host this; ro_port := cas_port this;
     ro_method := Some "GET";
     ro_path := Some (url_format (cas_path this +:+ validateUri adapter)
       [("service", JString (service_url this +:+ pathname (url_parse (url c))));
        ("ticket", query_ticket c)]);
     ro_headers := [] |}.

(** The world once that request has been sent. *)
Definition round_trip (this : Cas) (w : world St) : world St :=
  after (http Ended) (after (http (Opened (get_request this (ctx w)))) w).

(** [store.set(ctx.query.ticket, {key}, ONE_DAY, {changed: true})] *)
Definition register_binding (c : koa_ctx) : St → settled unit * St :=
  store_set (query_ticket c) (JObject [("key", externalKey (session c))]) ONE_DAY
    (JObject [("changed", JBool true)]).

(** The session writes and the redirect that follow a successful
    validation. *)
Definition commit_identity (this : Cas) (user attributes : jsval) : M St unit :=
  session_set (to_string (session_name this)) user;;
  (if truthy (session_info this)
   then session_set (to_string (session_info this)) (attribute_map attributes)
   else mret tt);;
  cas_return_to ← session_get "cas_return_to";
  redirect cas_return_to.

(** The request reaches the last two rows: nobody is logged in, dev mode
    is off, and the middleware is not [block]. *)
Definition unauthenticated (this : Cas) (authType : AUTH_TYPE) (w : world St) : Prop :=
  truthy (identity_slot this (ctx w)) = false
  ∧ is_dev_mode this = false
  ∧ authType ≠ BLOCK.

Inductive decision (this : Cas) (authType : AUTH_TYPE) (w : world St)
  : completion unit * world St → Prop :=
| authenticated_redirect :
    truthy (identity_slot this (ctx w)) = true →
    authType = BOUNCE_REDIRECT →
    decision this authType w
      (Ret tt, after (redirect (default JUndefined (assoc "redirectTo" (query (ctx w))))) w)
| authenticated_proceed :
    truthy (identity_slot this (ctx w)) = true →
    authType ≠ BOUNCE_REDIRECT →
    decision this authType w (Ret tt, after call_next w)
| dev_mode_short_circuit :
    truthy (identity_slot this (ctx w)) = false →
    is_dev_mode this = true →
    decision this authType w
      (Ret tt,
       after call_next
         (after (session_set (to_string (session_info this)) (dev_mode_info this))
            (after (session_set (to_string (session_name this)) (dev_mode_user this)) w)))
| blocked :
    truthy (identity_slot this (ctx w)) = false →
    is_dev_mode this = false →
    authType = BLOCK →
    decision this authType w (Ret tt, after (set_status 401) w)
| ticket_network_error e :
    unauthenticated this authType w →
    truthy (query_ticket (ctx w)) = true →
    http_respond (http_log (round_trip this w)) = Rejected e →
    decision this authType w (Ret tt, after (set_status 401) (round_trip this w))
| ticket_failure body msg :
    unauthenticated this authType w →
    truthy (query_ticket (ctx w)) = true →
    http_respond (http_log (round_trip this w)) = Fulfilled body →
    _validate body = Ret (CbErr msg) →
    decision this authType w (Ret tt, after (set_status 401) (round_trip this w))
| ticket_success body user attributes :
    unauthenticated this authType w →
    truthy (query_ticket (ctx w)) = true →
    http_respond (http_log (round_trip this w)) = Fulfilled body →
    _validate body = Ret (CbOk user attributes) →
    single_logout this = false →
    decision this authType w
      (Ret tt, after (commit_identity this user attributes) (round_trip this w))
| ticket_success_bound body user attributes :
    unauthenticated this authType w →
    truthy (query_ticket (ctx w)) = true →
    http_respond (http_log (round_trip this w)) = Fulfilled body →
    _validate body = Ret (CbOk user attributes) →
    single_logout this = true →
    (register_binding (ctx w) (store w)).1 = Fulfilled tt →
    decision this authType w
      (Ret tt,
       after (commit_identity this user attributes)
         (after (on_store (register_binding (ctx w))) (round_trip this w)))
| ticket_success_unbound body user attributes e :
    unauthenticated this authType w →
    truthy (query_ticket (ctx w)) = true →
    http_respond (http_log (round_trip this w)) = Fulfilled body →
    _validate body = Ret (CbOk user attributes) →
    single_logout this = true →
    (register_binding (ctx w) (store w)).1 = Rejected e →
    decision this authType w
      (Ret tt, after (on_store (register_binding (ctx w))) (round_trip this w))
| login_redirect :
    unauthenticated this authType w →
    truthy (query_ticket (ctx w)) = false →
    decision this authType w
      (Ret tt,
       after (redirect (JString (cas_url this +:+ url_format "/login"
                (("service", JString (service_url this
                                      +:+ pathname (url_parse (url (ctx w)))))
                   :: (if renew this then [("renew", JBool true)] else [])))))
         (after (session_set "cas_return_to"
                   (js_or (default JUndefined (assoc "returnTo" (query (ctx w))))
                      (JString (path (url_parse (url (ctx w)))))))
            w)).

(** *** Vocabulary for [handle_single_logout] *)

(** The notification carries a payload that xml2js parses to a logout
    request; [st] is its session index. *)
Definition names_ticket (c : koa_ctx) (st : jsval) : Prop :=
  ∃ payload result logoutrequest,
    get_prop (request_body c) "logoutRequest" = Ret payload
    ∧ parseXML payload = Parsed result
    ∧ get_prop result "logoutrequest" = Ret logoutrequest
    ∧ get_prop logoutrequest "sessionindex" = Ret st.

(** The handler returned and left the acknowledgment body. *)
Definition acknowledged (out : completion unit * world St) : Prop :=
  out.1 = Ret tt ∧ body (response (ctx out.2)) = Some "ok".

(** The success row as the specification words it: the identity and the
    attributes are in the session and the response redirects to the
    return URL saved by the earlier login redirect. *)
Definition success_row_as_stated (this : Cas) (user attributes : jsval)
    (w w' : world St) : Prop :=
  slots (session (ctx w')) !! to_string (session_name this) = Some user
  ∧ (∃ k, slots (session (ctx w')) !! k = Some (attribute_map attributes))
  ∧ redirect_to (response (ctx w'))
    = Some (default JUndefined (slots (session (ctx w)) !! "cas_return_to")).
End Handlers.

(** ** A reference session store *)

(** Modelled from the spec: the external session store, of which the
    repository has only the calls. It follows the store contract of the
    specification's section 6, [get(key, ttl, options) -> entry|null],
    [set(key, value, ttl, options) -> void], [destroy(key) -> void], all
    three fallible: entries keyed by string (keys are coerced as property
    keys are), each with the [maxAge] it was saved with. [faults] scripts
    the failures of the coming operations, one flag per call; a failing
    call changes nothing. *)
Record ref_store := RefStore {
  entries : gmap string (jsval * Z);
  faults : list bool
}.

Definition next_fault (s : ref_store) : bool := default false (head (faults s)).
Definition after_call (s : ref_store) (m : gmap string (jsval * Z)) : ref_store :=
  RefStore (if next_fault s then entries s else m) (tail (faults s)).

#[export] Instance ref_store_ops : SessionStore ref_store := {
  store_get key maxAge opts s :=
    (if next_fault s then Rejected (Fault "store.get")
     else Fulfilled (default JNull (fst <$> entries s !! to_string key)),
     after_call s (entries s));
  store_set key sess maxAge opts s :=
    (if next_fault s then Rejected (Fault "store.set") else Fulfilled tt,
     after_call s (<[to_string key := (sess, maxAge)]> (entries s)));
  store_destroy key s :=
    (if next_fault s then Rejected (Fault "store.destroy") else Fulfilled tt,
     after_call s (delete (to_string key) (entries s)))
}.

(** ** Requests over time *)

(** What happens to the store over the life of one instance: requests
    through the three middlewares, logout notifications, sessions saved by
    koa-session under their own key, and entries dropped when their
    [maxAge] has run out. *)
Inductive event : Type :=
| Request (authType : AUTH_TYPE) (c : koa_ctx)
| LogoutNotification (c : koa_ctx)
| SessionSaved (k : string) (sess : jsval) (maxAge : Z)
| Expired (k : string).

Section Lifetime.
Variable parseXML : jsval -> parse_result.
Variable url_parse : string -> parsed_url.
Variable url_format : string -> list (string * jsval) -> string.
Variable http_respond : list http_event -> settled string.
Variable now_ms : Z.
Variable now_iso : string.
Variable adapter : version.
Variable this : Cas.

(** The store after a handler has served the request [c]. *)
Definition serve (h : M ref_store unit) (c : koa_ctx) (s : ref_store) : ref_store :=
  store (h (World c s [] 0%nat)).2.

Definition step (s : ref_store) (e : event) : ref_store :=
  match e with
  | Request authType c =>
      serve (_handle parseXML url_parse url_format http_respond now_ms now_iso
               adapter this authType) c s
  | LogoutNotification c => serve (handle_single_logout parseXML this) c s
  | SessionSaved k sess maxAge => RefStore (<[k := (sess, maxAge)]> (entries s)) (faults s)
  | Expired k => RefStore (delete k (entries s)) (faults s)
  end.

Definition run (s : ref_store) (trace : list event) : ref_store :=
  foldl step s trace.

(** The request is one that [_handle] sends to ticket validation. *)
Definition carries_fresh_ticket (authType : AUTH_TYPE) (c : koa_ctx) : bool :=
  negb (truthy (identity_slot this c))
  && negb (is_dev_mode this)
  && match authType with BLOCK => false | _ => true end
  && truthy (query_ticket c).

(** The round trip to the CAS server for the request [c] and what the
    parser makes of the answer. *)
Definition validation (c : koa_ctx) : completion cb_args :=
  ((requestOptions ← build_request url_parse url_format now_ms now_iso adapter this;
    body ← _request http_respond this requestOptions;
    Eff.lift (_validate parseXML adapter body)) (World c (RefStore ∅ []) [] 0%nat)).1.

(** The ticket for which the request obtained a successful validation. *)
Definition validated (authType : AUTH_TYPE) (c : koa_ctx) : option string :=
  if carries_fresh_ticket authType c then
    match validation c with
    | Ret (CbOk _ _) => Some (to_string (query_ticket c))
    | _ => None
    end
  else None.

(** The ticket (session index) a logout notification names. *)
Definition notified (c : koa_ctx) : option string :=
  match get_prop (request_body c) "logoutRequest" with
  | Ret logoutRequest =>
      match parseXML logoutRequest with
      | Parsed result =>
          match (lr ← get_prop result "logoutrequest"; get_prop lr "sessionindex") with
          | Ret st => Some (to_string st)
          | _ => None
          end
      | ParseErr => None
      end
  | _ => None
  end.

(** The tickets that were validated and have since neither been named by
    a logout notification nor expired. *)
Definition live_step (live : gset string) (e : event) : gset string :=
  match e with
  | Request authType c =>
      match validated authType c with
      | Some t => live ∪ {[t]}
      | None => live
      end
  | LogoutNotification c =>
      match notified c with
      | Some t => live ∖ {[t]}
      | None => live
      end
  | SessionSaved _ _ _ => live
  | Expired k => live ∖ {[k]}
  end.

Definition live (trace : list event) : gset string := foldl live_step ∅ trace.

(** A TicketSessionBinding for [t]: a store entry under the ticket value
    holding the local session key. *)
Definition binding_exists (s : ref_store) (t : string) : Prop :=
  ∃ key maxAge, entries s !! t = Some (JObject [("key", key)], maxAge).

(** The invariant as the specification words it. *)
Definition binding_invariant_as_stated (s0 : ref_store) (trace : list event) : Prop :=
  ∀ t, binding_exists (run s0 trace) t ↔
       single_logout this = true ∧ t ∈ live trace.

(** The strings that are service tickets. *)
Variable is_ticket : string → bool.

(** Tickets and session keys do not collide: sessions live in the store
    under keys that are not tickets, and logout notifications name
    tickets. *)
Definition well_scoped (e : event) : Prop :=
  match e with
  | Request _ c => is_ticket (to_string (externalKey (session c))) = false
  | LogoutNotification c => ∀ t, notified c = Some t → is_ticket t = true
  | SessionSaved k _ _ => is_ticket k = false
  | Expired _ => True
  end.

(** What a store that does not fail holds after the reconciliation of the
    session index [st]. *)
Definition reconciled (st : string) (m : gmap string (jsval * Z)) : gmap string (jsval * Z) :=
  let sessionResult := default JNull (fst <$> m !! st) in
  match get_prop sessionResult "key" with
  | Ret key =>
      if truthy sessionResult && truthy key
      then delete st (delete (to_string key) m)
      else delete st m
  | _ => delete st m
  end.

(** What the store and the live tickets have in common while no store
    operation fails. *)
Definition bindings_match (s : ref_store) (tickets : gset string) : Prop :=
  faults s = []
  ∧ ∀ t, is_ticket t = true →
      match entries s !! t with
      | Some (v, maxAge) =>
          single_logout this = true ∧ t ∈ tickets ∧ maxAge = ONE_DAY
          ∧ ∃ key, v = JObject [("key", key)] ∧ is_ticket (to_string key) = false
      | None => ¬ (single_logout this = true ∧ t ∈ tickets)
      end.
End Lifetime.

(** ** The specification's vocabulary *)

(** "The value extracted after its last colon". *)
Definition after_last_colon (s : string) : string :=
  List.last (split_on colon s) "".

(** The SAML status rule as the specification words it: the status code is
    what follows the last colon of the attribute [value], and a code other
    than ["Success"] gives the failure message carrying that code. *)
Definition saml_status_rule_as_stated (result : jsval) (value : string) : Prop :=
  ∃ samlResponse,
    saml_response result = Ret samlResponse
    ∧ saml_status samlResponse = Ret (JString (after_last_colon value))
    ∧ (after_last_colon value ≠ "Success" →
       validate_saml_parsed (Parsed result)
       = Ret (CbErr ("CAS authentication failed (" +:+ after_last_colon value +:+ ")."))).

(** A string without the separator. *)
Fixpoint free_of (sep : ascii) (s : string) : bool :=
  match s with
  | EmptyString => true
  | String c r => negb (Ascii.eqb c sep) && free_of sep r
  end.

(** ** Sample inputs *)

Module Sample.
(** A stand-in for [url.parse]: request URLs start with a slash and split
    at the question mark; anything else is the CAS server's URL. *)
Definition url_parse (u : string) : parsed_url :=
  if String.prefix "/" u then
    {| protocol := ""; hostname := ""; port := JNull;
       pathname := List.hd "" (split_on "?"%char u); path := u |}
  else
    {| protocol := "https:"; hostname := "cas.example.org"; port := JNull;
       pathname := "/cas"; path := "/cas" |}.

(** A stand-in for [url.format] that does not escape. *)
Definition url_format (pathname : string) (query : list (string * jsval)) : string :=
  pathname +:+ "?" +:+
  String.concat "&" ((fun kv => kv.1 +:+ "=" +:+ to_string kv.2) <$> query).

Definition saml_doc (value : string) : jsval :=
  JObject [("envelope", JObject [("body", JObject [("response", JObject
    [("status", JObject [("statuscode", JObject
       [("$", JObject [("Value", JString value)])])])])])])].

Definition v2_failure_doc (code : string) : jsval :=
  JObject [("serviceresponse", JObject [("authenticationfailure", JObject
    [("$", JObject [("code", JString code)]);
     ("_", JString "Ticket not recognized")])])].

Definition v2_success_doc (user : string) (attributes : option jsval) : jsval :=
  JObject [("serviceresponse", JObject [("authenticationsuccess", JObject
    (("user", JString user)
       :: match attributes with
          | Some a => [("attributes", a)]
          | None => []
          end))])].

Definition logout_doc (ticket : string) : jsval :=
  JObject [("logoutrequest", JObject
    [("$", JObject [("ID", JString "LR-6"); ("Version", JString "2.0")]);
     ("nameid", JString "sample_id");
     ("sessionindex", JString ticket)])].

(** A stand-in for xml2js on a few fixture bodies. *)
Definition parseXML (x : jsval) : parse_result :=
  match x with
  | JString s =>
      if String.eqb s "v2-success" then
        Parsed (v2_success_doc "alice" (Some (JObject [("mail", JString "alice@example.org")])))
      else if String.eqb s "v2-success-bare" then Parsed (v2_success_doc "alice" None)
      else if String.eqb s "v2-failure" then Parsed (v2_failure_doc "INVALID_TICKET")
      else if String.eqb s "v2-empty" then Parsed (JObject [("serviceresponse", JString "")])
      else if String.eqb s "saml-requester" then Parsed (saml_doc "samlp:Requester")
      else if String.eqb s "slo ST-1" then Parsed (logout_doc "ST-1")
      else if String.eqb s "slo sess-7" then Parsed (logout_doc "sess-7")
      else if String.eqb s "" then Parsed JNull
      else ParseErr
  | _ => ParseErr
  end.

(** The CAS server answers every finished request with [body]. *)
Definition answers (body : string) (log : list http_event) : settled string :=
  Fulfilled body.

(** The CAS server cannot be reached. *)
Definition unreachable (log : list http_event) : settled string :=
  Rejected (Fault "ECONNREFUSED").

Definition options : CAS_options :=
  {| o_cas_url := Some "https://cas.example.org/cas";
     o_service_url := Some "https://app.example.org";
     o_cas_version := JUndefined;
     o_renew := JUndefined;
     o_is_dev_mode := JUndefined;
     o_dev_mode_user := JUndefined;
     o_dev_mode_info := JUndefined;
     o_session_name := JUndefined;
     o_session_info := JUndefined;
     o_destroy_session := JUndefined;
     o_logout_redirect_url := JUndefined;
     o_single_logout := JUndefined |}.

(** The instance built from [options], with some fields overridden. *)
Definition cas (v : version) (info : jsval) (dev slo : bool) : Cas :=
  {| cas_version := v;
     cas_url := "https://cas.example.org/cas";
     request_client_is_http := false;
     cas_host := "cas.example.org";
     cas_port := JNum 443;
     cas_path := "/cas";
     service_url := "https://app.example.org";
     renew := false;
     is_dev_mode := dev;
     dev_mode_user := JString "";
     dev_mode_info := JObject [];
     session_name := JString "cas_user";
     session_info := info;
     destroy_session := false;
     logout_redirect_url := JUndefined;
     single_logout := slo |}.

Definition blank : Response :=
  {| status := None; body := None; redirect_to := None |}.

(** A request for [u] with the given query, on a session holding [s]. *)
Definition request (u : string) (q : list (string * jsval))
    (s : gmap string jsval) : koa_ctx :=
  {| url := u; query := q; request_body := JUndefined;
     session := {| slots := s; externalKey := JString "sess-9" |};
     response := blank |}.

(** A logout notification posted with the form field [logoutRequest]. *)
Definition notification (payload : jsval) : koa_ctx :=
  {| url := "/cas/logout"; query := [];
     request_body := JObject [("logoutRequest", payload)];
     session := {| slots := ∅; externalKey := JUndefined |};
     response := blank |}.

Definition start {St} (c : koa_ctx) (s : St) : world St := World c s [] 0%nat.

(** The attributes of the fixture "v2-success". *)
Definition alice_attributes : jsval := JObject [("mail", JString "alice@example.org")].

(** A request coming back from the CAS login with a ticket, the return URL
    having been saved by the earlier redirect. *)
Definition ticket_request : koa_ctx :=
  request "/home?ticket=ST-1" [("ticket", JString "ST-1")]
    {["cas_return_to" := JString "/home"]}.

(** An options object that turns dev mode on and names no attributes slot. *)
Definition dev_options : CAS_options :=
  {| o_cas_url := Some "https://cas.example.org/cas";
     o_service_url := Some "https://app.example.org";
     o_cas_version := JUndefined;
     o_renew := JUndefined;
     o_is_dev_mode := JBool true;
     o_dev_mode_user := JString "dev";
     o_dev_mode_info := JObject [("role", JString "tester")];
     o_session_name := JUndefined;
     o_session_info := JUndefined;
     o_destroy_session := JUndefined;
     o_logout_redirect_url := JUndefined;
     o_single_logout := JUndefined |}.

(** A store holding the session "sess-9" and the binding of ticket "ST-1"
    to it; [faults] scripts the coming failures. *)
Definition bound_store (faults : list bool) : ref_store :=
  RefStore
    (<["ST-1" := (JObject [("key", JString "sess-9")], ONE_DAY)]>
       {["sess-9" := (JObject [("cas_user", JString "alice")], ONE_DAY)]})
    faults.

(** A store holding the session "sess-9" and no binding. *)
Definition session_store (faults : list bool) : ref_store :=
  RefStore {["sess-9" := (JObject [("cas_user", JString "alice")], ONE_DAY)]} faults.

(** Service tickets start with "ST-". *)
Definition is_ticket (s : string) : bool := String.prefix "ST-" s.

(** A login with ticket "ST-1", then the logout notification for it. *)
Definition login_then_logout : list event :=
  [Request BOUNCE ticket_request; LogoutNotification (notification (JString "slo ST-1"))].

(** A session saved under "sess-7" whose data has a [key] field naming the
    ticket "ST-1", a login with that ticket, then a notification whose
    session index is "sess-7". *)
Definition colliding_logout : list event :=
  [SessionSaved "sess-7" (JObject [("key", JString "ST-1")]) ONE_DAY;
   Request BOUNCE ticket_request;
   LogoutNotification (notification (JString "slo sess-7"))].
End Sample.

(** ** The logout middleware ([logout], lines 227-249) *)

Section LogoutHandler.
Context {St : Type}.

(** [ctx.session.destroy(callback)], an operation of the session object,
    which may reach the session store: the session it leaves behind or the
    exception it throws, and the store as it leaves it. The callback only
    logs the error it is given. *)
Variable session_destroy : Session -> St -> completion Session * St.

(** [delete ctx.session[k]] *)
Definition session_delete (k : string) : M St unit :=
  Eff.update (fun c =>
    {| url := url c; query := query c; request_body := request_body c;
       session := {| slots := delete k (slots (session c));
                     externalKey := externalKey (session c) |};
       response := response c |}).

(** [ctx.session.destroy(...)] within the handler. *)
Definition call_session_destroy : M St unit := fun w =>
  let (outcome, store') := session_destroy (session (ctx w)) (store w) in
  match outcome with
  | Ret left_behind =>
      (Ret tt,
       {| ctx := {| url := url (ctx w); query := query (ctx w);
                    request_body := request_body (ctx w);
                    session := left_behind; response := response (ctx w) |};
          store := store'; http_log := http_log w; next_calls := next_calls w |})
  | Throw e =>
      (Throw e,
       {| ctx := ctx w; store := store'; http_log := http_log w;
          next_calls := next_calls w |})
  | Pending =>
      (Pending,
       {| ctx := ctx w; store := store'; http_log := http_log w;
          next_calls := next_calls w |})
  end.

(** [logout] (lines 227-249) *)
Definition logout (this : Cas) : M St unit :=
  (if destroy_session this then call_session_destroy
   else
     session_delete (to_string (session_name this));;
     if truthy (session_info this)
     then session_delete (to_string (session_info this))
     else mret tt);;
  let query :=
    if truthy (logout_redirect_url this)
    then "service=" +:+ to_string (logout_redirect_url this)
    else "" in
  Eff.redirect (JString (cas_url this +:+ "/logout?" +:+ query)).
End LogoutHandler.

(** ** Readers of one SAML attribute element (lines 135-144) *)

(** [attr.$.AttributeName], as the property key it becomes. *)
Definition attribute_name (attr : jsval) : completion string :=
  d ← get_prop attr "$";
  name ← get_prop d "AttributeName";
  Ret (to_string name).

(** [thisAttrValue]: the values of a multi-valued attribute in order, or
    the one value. *)
Definition attribute_value (attr : jsval) : completion jsval :=
  av ← get_prop attr "attributevalue";
  match av with
  | JArray vs => xs ← collect_values vs; Ret (JArray xs)
  | _ => get_prop av "_"
  end.

(** [samlResponse.assertion.attributestatement.attribute] *)
Definition saml_attribute_elements (samlResponse : jsval) : completion jsval :=
  assertion ← get_prop samlResponse "assertion";
  stmt ← get_prop assertion "attributestatement";
  get_prop stmt "attribute".

(** The value of the last element of [attrs] that carries the name [k]. *)
Fixpoint last_named (k : string) (attrs : list jsval) : option jsval :=
  match attrs with
  | [] => None
  | attr :: rest =>
      match last_named k rest with
      | Some v => Some v
      | None =>
          match attribute_name attr, attribute_value attr with
          | Ret k', Ret v => if String.eqb k' k then Some v else None
          | _, _ => None
          end
      end
  end.

(** ** More sample inputs *)

Module Fixture.
(** A SAML attribute element with one value. *)
Definition attribute (name value : string) : jsval :=
  JObject [("$", JObject [("AttributeName", JString name)]);
           ("attributevalue", JObject [("_", JString value)])].

(** A SAML response with status "samlp:Success" and the given assertion. *)
Definition saml_success (assertion : jsval) : jsval :=
  JObject [("envelope", JObject [("body", JObject [("response", JObject
    [("status", JObject [("statuscode", JObject
       [("$", JObject [("Value", JString "samlp:Success")])])]);
     ("assertion", assertion)])])])].

(** An assertion with a subject and no attribute statement. *)
Definition bare_assertion : jsval :=
  JObject [("authenticationstatement", JObject [("subject", JObject
    [("nameidentifier", JString "alice")])])].

(** [ctx.session.destroy] emptying the session and leaving the store
    alone. *)
Definition emptying {St : Type} (s : Session) (st : St) : completion Session * St :=
  (Ret {| slots := ∅; externalKey := externalKey s |}, st).

(** A session that holds an identity, attributes and another slot. *)
Definition logged_in : gmap string jsval :=
  <["cas_user" := JString "alice"]>
    (<["cas_info" := JObject [("mail", JString "alice@example.org")]]>
       {["cart" := JString "3 items"]}).

(** Options that give nothing but the two URLs and a version. *)
Definition options_for (cas_version : jsval) : CAS_options :=
  {| o_cas_url := Some "https://cas.example.org/cas";
     o_service_url := Some "https://app.example.org";
     o_cas_version := cas_version;
     o_renew := JUndefined;
     o_is_dev_mode := JUndefined;
     o_dev_mode_user := JUndefined;
     o_dev_mode_info := JUndefined;
     o_session_name := JUndefined;
     o_session_info := JString "cas_info";
     o_destroy_session := JUndefined;
     o_logout_redirect_url := JUndefined;
     o_single_logout := JUndefined |}.

(** Options that turn dev mode on and give no dev identity and no
    attributes slot. *)
Definition dev_default_options : CAS_options :=
  {| o_cas_url := Some "https://cas.example.org/cas";
     o_service_url := Some "https://app.example.org";
     o_cas_version := JUndefined;
     o_renew := JUndefined;
     o_is_dev_mode := JBool true;
     o_dev_mode_user := JUndefined;
     o_dev_mode_info := JObject [("role", JString "tester")];
     o_session_name := JUndefined;
     o_session_info := JUndefined;
     o_destroy_session := JUndefined;
     o_logout_redirect_url := JUndefined;
     o_single_logout := JUndefined |}.

(** A first visit, without identity or ticket. *)
Definition first_visit : koa_ctx :=
  Sample.request "/home?x=1" [("x", JString "1")] ∅.

(** The same session coming back from the CAS login with a ticket. *)
Definition returning : koa_ctx :=
  Sample.request "/home?ticket=ST-1" [("ticket", JString "ST-1")]
    {["cas_return_to" := JString "/home?x=1"]}.

(** A request on a session that holds an identity. *)
Definition member_request : koa_ctx :=
  Sample.request "/account" [] logged_in.

(** A version 1.0 body: "yes", the identity, and a trailing newline. *)
Definition v1_yes : string :=
  "yes" +:+ String newline ("alice" +:+ String newline "").
(** xml2js handing back the given document, whatever the text. *)
Definition parse_to (doc : jsval) (x : jsval) : parse_result := Parsed doc.

(** A version 2.0 success element with attributes and no user. *)
Definition anonymous_success : jsval :=
  JObject [("serviceresponse", JObject [("authenticationsuccess", JObject
    [("attributes", JObject [("mail", JString "alice@example.org")])])])].

(** A version 2.0 success element whose attributes block is empty. *)
Definition empty_block_success : jsval :=
  JObject [("serviceresponse", JObject [("authenticationsuccess", JObject
    [("user", JString "alice"); ("attributes", JString "")])])].

(** An assertion with one attribute and a subject without a name
    identifier. *)
Definition anonymous_assertion : jsval :=
  JObject [("attributestatement", JObject
             [("attribute", attribute "mail" "alice@example.org")]);
           ("authenticationstatement", JObject [("subject", JObject [])])].
End Fixture.

(** * Properties *)

(** ** Language-level facts *)

Lemma get_prop_settles v k : get_prop v k ≠ Pending.
Proof. destruct v; discriminate. Qed.

Lemma bind_settles {A B} (m : completion A) (k : A → completion B) :
  m ≠ Pending → (∀ a, k a ≠ Pending) → m ≫= k ≠ Pending.
Proof. destruct m; simpl; [auto | discriminate | congruence]. Qed.

Lemma collect_values_settles vs : collect_values vs ≠ Pending.
Proof.
  induction vs as [|v r IH]; [discriminate|].
  simpl. apply bind_settles; [apply get_prop_settles|].
  intros x. apply bind_settles; [exact IH | discriminate].
Qed.

Lemma saml_attribute_settles attr acc : saml_attribute attr acc ≠ Pending.
Proof.
  unfold saml_attribute.
  apply bind_settles; [apply get_prop_settles|]. intros av.
  apply bind_settles.
  - destruct av; try apply get_prop_settles.
    apply bind_settles; [apply collect_values_settles | discriminate].
  - intros x. apply bind_settles; [apply get_prop_settles|]. intros d.
    apply bind_settles; [apply get_prop_settles | discriminate].
Qed.

Lemma saml_attributes_settles attrs acc : saml_attributes attrs acc ≠ Pending.
Proof.
  revert acc. induction attrs as [|a r IH]; intros acc; [discriminate|].
  simpl. apply bind_settles; [apply saml_attribute_settles | auto].
Qed.

Lemma saml_status_settles r : saml_status r ≠ Pending.
Proof.
  unfold saml_status, saml_status_value.
  apply bind_settles.
  - repeat (apply bind_settles; [apply get_prop_settles | intros ?]).
    apply get_prop_settles.
  - intros v. apply bind_settles; [destruct v; discriminate | discriminate].
Qed.

Lemma validate_v2_try_settles result : validate_v2_try result ≠ Pending.
Proof.
  unfold validate_v2_try.
  apply bind_settles; [apply get_prop_settles | intros sr].
  apply bind_settles; [apply get_prop_settles | intros failure].
  destruct (truthy failure).
  - repeat (apply bind_settles; [apply get_prop_settles | intros ?]). discriminate.
  - apply bind_settles; [apply get_prop_settles | intros sr'].
    apply bind_settles; [apply get_prop_settles | intros success].
    destruct (truthy success); [|discriminate].
    repeat (apply bind_settles; [apply get_prop_settles | intros ?]). discriminate.
Qed.

Lemma validate_saml_try_settles result : validate_saml_try result ≠ Pending.
Proof.
  unfold validate_saml_try, saml_response.
  apply bind_settles.
  { repeat (apply bind_settles; [apply get_prop_settles | intros ?]).
    apply get_prop_settles. }
  intros samlResponse.
  apply bind_settles; [apply saml_status_settles | intros success].
  destruct (negb _); [discriminate|].
  repeat (apply bind_settles; [apply get_prop_settles | intros ?]).
  apply bind_settles; [apply saml_attributes_settles | intros ?].
  repeat (apply bind_settles; [apply get_prop_settles | intros ?]).
  discriminate.
Qed.

(** ** The parsers *)

Lemma validate_returns (parseXML : jsval → parse_result) (adapter : version)
    (body : string) :
  ∃ args, _validate parseXML adapter body = Ret args.
Proof.
  destruct adapter; unfold _validate.
  - unfold validate_v1. destruct (_ && _); [|destruct (strict_eq_str _ _)]; eauto.
  - destruct (parseXML (JString body)) as [|result]; simpl; [eauto|].
    destruct (validate_v2_try result) eqn:T; simpl; eauto.
    now apply validate_v2_try_settles in T.
  - destruct (parseXML (JString body)) as [|result]; simpl; [eauto|].
    destruct (validate_v2_try result) eqn:T; simpl; eauto.
    now apply validate_v2_try_settles in T.
  - destruct (parseXML (JString body)) as [|result]; simpl; [eauto|].
    destruct (validate_saml_try result) eqn:T; simpl; eauto.
    now apply validate_saml_try_settles in T.
Qed.

(** *** Lines of a string *)

Lemma split_on_cons sep a b :
  free_of sep a = true →
  split_on sep (a +:+ String sep b) = a :: split_on sep b.
Proof.
  intros Ha. induction a as [|c r IH]; simpl.
  - rewrite Ascii.eqb_refl. reflexivity.
  - simpl in Ha. apply andb_prop in Ha as [Hc Hr]. apply negb_true_iff in Hc.
    rewrite Hc. simpl in IH. rewrite (IH Hr). reflexivity.
Qed.

(** A string is its first line, or its first line, the separator and the
    rest. *)
Lemma split_on_first sep s :
  ∃ first others,
    split_on sep s = first :: others
    ∧ free_of sep first = true
    ∧ (others = [] ∧ s = first
       ∨ ∃ rest, s = first +:+ String sep rest ∧ others = split_on sep rest).
Proof.
  induction s as [|c r (first & others & Hsplit & Hfree & Hshape)]; simpl.
  - exists "", []. repeat split. now left.
  - destruct (Ascii.eqb c sep) eqn:Hc.
    + apply Ascii.eqb_eq in Hc as ->. exists "", (split_on sep r).
      repeat split. right. now exists r.
    + rewrite Hsplit. exists (String c first), others. split; [reflexivity|].
      split; [simpl; now rewrite Hc|].
      destruct Hshape as [[-> ->] | (rest & -> & ->)]; [now left|].
      right. now exists rest.
Qed.

Lemma split_on_nonempty sep s : split_on sep s ≠ [].
Proof. destruct (split_on_first sep s) as (f & o & -> & _). discriminate. Qed.

Lemma free_of_yes : free_of newline "yes" = true.
Proof. reflexivity. Qed.

(** *** What the parsers accept *)

Lemma completion_bind_assoc {A B C} (m : completion A) (f : A → completion B)
    (g : B → completion C) :
  (m ≫= f) ≫= g = m ≫= (λ x, f x ≫= g).
Proof. now destruct m. Qed.

(** The [try] block once the status says "Success". *)
Lemma validate_saml_try_success (result samlResponse : jsval) :
  saml_response result = Ret samlResponse →
  saml_status samlResponse = Ret (JString "Success") →
  validate_saml_try result
  = (elements ← saml_attribute_elements samlResponse;
     attributes ← saml_attributes
                    match elements with JArray l => l | other => [other] end [];
     assertion ← get_prop samlResponse "assertion";
     auth ← get_prop assertion "authenticationstatement";
     subject ← get_prop auth "subject";
     nameid ← get_prop subject "nameidentifier";
     Ret (CbOk nameid (JObject attributes))).
Proof.
  intros Hr Hs. unfold validate_saml_try, saml_attribute_elements.
  rewrite Hr. cbn [mbind completion_bind]. rewrite Hs. cbn [mbind completion_bind].
  cbn [strict_eq_str String.eqb Ascii.eqb Bool.eqb negb].
  destruct (get_prop samlResponse "assertion") as [assertion| |]; [|reflexivity..].
  cbn [mbind completion_bind].
  destruct (get_prop assertion "attributestatement") as [stmt| |]; reflexivity.
Qed.

Lemma try_catch_ok {A} (m : completion A) (h : exn → completion A) (a : A) :
  (∀ e, h e ≠ Ret a) → try_catch m h = Ret a → m = Ret a.
Proof. destruct m; simpl; intros Hh H; [exact H | now destruct (Hh e) | discriminate]. Qed.

Lemma validate_v2_try_success (result user attributes : jsval) :
  validate_v2_try result = Ret (CbOk user attributes)
  ↔ ∃ sr failure success,
      get_prop result "serviceresponse" = Ret sr
      ∧ get_prop sr "authenticationfailure" = Ret failure
      ∧ truthy failure = false
      ∧ get_prop sr "authenticationsuccess" = Ret success
      ∧ truthy success = true
      ∧ get_prop success "user" = Ret user
      ∧ get_prop success "attributes" = Ret attributes.
Proof.
  unfold validate_v2_try. split.
  - destruct (get_prop result "serviceresponse") as [sr| |] eqn:Hsr; try discriminate.
    cbn [mbind completion_bind].
    destruct (get_prop sr "authenticationfailure") as [failure| |] eqn:Hf;
      try discriminate.
    cbn [mbind completion_bind]. destruct (truthy failure) eqn:Htf.
    { destruct (get_prop failure "$") as [d| |]; try discriminate.
      cbn [mbind completion_bind]. destruct (get_prop d "code"); discriminate. }
    destruct (get_prop sr "authenticationsuccess") as [success| |] eqn:Hs;
      try discriminate.
    cbn [mbind completion_bind]. destruct (truthy success) eqn:Hts; [|discriminate].
    destruct (get_prop success "user") as [u| |] eqn:Hu; try discriminate.
    cbn [mbind completion_bind].
    destruct (get_prop success "attributes") as [a| |] eqn:Ha; try discriminate.
    intros [= <- <-]. exists sr, failure, success. now repeat split.
  - intros (sr & failure & success & -> & Hf & Htf & Hs & Hts & Hu & Ha).
    cbn [mbind completion_bind]. rewrite Hf. cbn [mbind completion_bind].
    rewrite Htf, Hs. cbn [mbind completion_bind]. rewrite Hts, Hu.
    cbn [mbind completion_bind]. now rewrite Ha.
Qed.

Lemma validate_v2_try_message (result : jsval) (msg : string) :
  validate_v2_try result = Ret (CbErr msg) →
  msg = msg_failed
  ∨ ∃ sr failure d code,
      get_prop result "serviceresponse" = Ret sr
      ∧ get_prop sr "authenticationfailure" = Ret failure
      ∧ truthy failure = true
      ∧ get_prop failure "$" = Ret d
      ∧ get_prop d "code" = Ret code
      ∧ msg = msg_failed_code code.
Proof.
  unfold validate_v2_try.
  destruct (get_prop result "serviceresponse") as [sr| |] eqn:Hsr; try discriminate.
  cbn [mbind completion_bind].
  destruct (get_prop sr "authenticationfailure") as [failure| |] eqn:Hf;
    try discriminate.
  cbn [mbind completion_bind]. destruct (truthy failure) eqn:Htf.
  - destruct (get_prop failure "$") as [d| |] eqn:Hd; try discriminate.
    cbn [mbind completion_bind].
    destruct (get_prop d "code") as [code| |] eqn:Hc; try discriminate.
    intros [= <-]. right. exists sr, failure, d, code. now repeat split.
  - destruct (get_prop sr "authenticationsuccess") as [success| |]; try discriminate.
    cbn [mbind completion_bind]. destruct (truthy success).
    + destruct (get_prop success "user"); try discriminate.
      cbn [mbind completion_bind]. destruct (get_prop success "attributes"); discriminate.
    + intros [= <-]. now left.
Qed.

Lemma validate_saml_try_ok (result user attributes : jsval) :
  validate_saml_try result = Ret (CbOk user attributes)
  ↔ ∃ samlResponse elements fields subject,
    saml_response result = Ret samlResponse
    ∧ saml_status samlResponse = Ret (JString "Success")
    ∧ saml_attribute_elements samlResponse = Ret elements
    ∧ saml_attributes match elements with JArray l => l | other => [other] end []
      = Ret fields
    ∧ attributes = JObject fields
    ∧ (assertion ← get_prop samlResponse "assertion";
       auth ← get_prop assertion "authenticationstatement";
       get_prop auth "subject") = Ret subject
    ∧ get_prop subject "nameidentifier" = Ret user.
Proof.
  split; [intros T|].
  2: { intros (samlResponse & elements & fields & subject
                 & Hr & Hs & He & Hf & -> & Hsub & Hn).
       rewrite (validate_saml_try_success result samlResponse Hr Hs), He.
       cbn [mbind completion_bind]. rewrite Hf. cbn [mbind completion_bind].
       destruct (get_prop samlResponse "assertion") as [assertion| |];
         try discriminate Hsub.
       cbn [mbind completion_bind] in *.
       destruct (get_prop assertion "authenticationstatement") as [auth| |];
         try discriminate Hsub.
       cbn [mbind completion_bind] in *. rewrite Hsub.
       cbn [mbind completion_bind]. now rewrite Hn. }
  destruct (saml_response result) as [samlResponse| |] eqn:Hr;
    try (unfold validate_saml_try in T; rewrite Hr in T; discriminate T).
  destruct (saml_status samlResponse) as [st| |] eqn:Hs;
    try (unfold validate_saml_try in T; rewrite Hr in T; cbn [mbind completion_bind] in T;
         rewrite Hs in T; discriminate T).
  assert (Hst : st = JString "Success").
  { unfold validate_saml_try in T. rewrite Hr in T. cbn [mbind completion_bind] in T.
    rewrite Hs in T. cbn [mbind completion_bind] in T.
    destruct st; cbn [strict_eq_str negb] in T; try discriminate T.
    destruct (String.eqb s "Success") eqn:E; [|discriminate T].
    now apply String.eqb_eq in E as ->. }
  subst st. rewrite (validate_saml_try_success result samlResponse Hr Hs) in T.
  destruct (saml_attribute_elements samlResponse) as [elements| |] eqn:He;
    try discriminate T.
  cbn [mbind completion_bind] in T.
  destruct (saml_attributes _ []) as [fields| |] eqn:Hf; try discriminate T.
  cbn [mbind completion_bind] in T.
  destruct (get_prop samlResponse "assertion") as [assertion| |] eqn:Ha;
    try discriminate T.
  cbn [mbind completion_bind] in T.
  destruct (get_prop assertion "authenticationstatement") as [auth| |] eqn:Hau;
    try discriminate T.
  cbn [mbind completion_bind] in T.
  destruct (get_prop auth "subject") as [subject| |] eqn:Hsub; try discriminate T.
  cbn [mbind completion_bind] in T.
  destruct (get_prop subject "nameidentifier") as [nameid| |] eqn:Hn; try discriminate T.
  injection T as <- <-.
  exists samlResponse, elements, fields, subject.
  rewrite Ha. cbn [mbind completion_bind]. rewrite Hau. cbn [mbind completion_bind].
  now repeat split.
Qed.

Lemma validate_saml_try_message (result : jsval) (msg : string) :
  validate_saml_try result = Ret (CbErr msg) → ∃ code, msg = msg_failed_code code.
Proof.
  unfold validate_saml_try.
  destruct (saml_response result) as [samlResponse| |]; try discriminate.
  cbn [mbind completion_bind].
  destruct (saml_status samlResponse) as [st| |]; try discriminate.
  cbn [mbind completion_bind].
  destruct (negb (strict_eq_str st "Success")); [intros [= <-]; now exists st|].
  destruct (get_prop samlResponse "assertion") as [assertion| |]; try discriminate.
  cbn [mbind completion_bind].
  destruct (get_prop assertion "attributestatement") as [stmt| |]; try discriminate.
  cbn [mbind completion_bind].
  destruct (get_prop stmt "attribute") as [elements| |]; try discriminate.
  cbn [mbind completion_bind].
  destruct (saml_attributes _ []) as [fields| |]; try discriminate.
  cbn [mbind completion_bind].
  destruct (get_prop assertion "authenticationstatement") as [auth| |]; try discriminate.
  cbn [mbind completion_bind].
  destruct (get_prop auth "subject") as [subject| |]; try discriminate.
  cbn [mbind completion_bind].
  destruct (get_prop subject "nameidentifier"); discriminate.
Qed.


Lemma validate_v1_yes (rest : string) :
  validate_v1 ("yes" +:+ String newline rest)
  = Ret (CbOk (JString (List.hd "" (split_on newline rest))) JUndefined).
Proof.
  unfold validate_v1. rewrite (split_on_cons newline "yes" rest free_of_yes).
  destruct (split_on_first newline rest) as (second & more & Hrest & _).
  rewrite Hrest. reflexivity.
Qed.

(** C2 (as the code has it). Whatever parser the constructor installed
    and whatever body comes back, [_validate] hands its callback exactly
    one set of arguments and raises nothing. A parse error of xml2js is
    answered with the "bad response" failure, and an exception inside the
    [try] block with the generic failure. Success is reported exactly for
    a response that carries the success marker of the version: for 1.0 a
    first line "yes" followed by a second line; for 2.0 and 3.0 a parsed
    document with a truthy success element and no truthy failure element;
    for saml1.1 a parsed document whose status code is "Success", whose
    attribute elements can all be read and whose assertion has a subject.
    Every other input is answered with a failure, whose message is one of
    the three the parsers know. The identity itself is not checked: it is
    whatever the second line, the [user] or the [nameidentifier] holds. *)
Theorem validate_never_raises (parseXML : jsval → parse_result)
    (adapter : version) (body : string) :
  ∃ args,
    _validate parseXML adapter body = Ret args
    ∧ (adapter ≠ V1 → parseXML (JString body) = ParseErr → args = CbErr msg_bad)
    ∧ (∀ result e,
         parseXML (JString body) = Parsed result →
         (adapter = V2 ∨ adapter = V3) ∧ validate_v2_try result = Throw e
         ∨ adapter = SAML1_1 ∧ validate_saml_try result = Throw e →
         args = CbErr msg_failed)
    ∧ (∀ user attributes,
         args = CbOk user attributes
         ↔ match adapter with
         | V1 =>
             ∃ rest,
               body = "yes" +:+ String newline rest
               ∧ user = JString (List.hd "" (split_on newline rest))
               ∧ attributes = JUndefined
         | V2 | V3 =>
             ∃ result sr failure success,
               parseXML (JString body) = Parsed result
               ∧ get_prop result "serviceresponse" = Ret sr
               ∧ get_prop sr "authenticationfailure" = Ret failure
               ∧ truthy failure = false
               ∧ get_prop sr "authenticationsuccess" = Ret success
               ∧ truthy success = true
               ∧ get_prop success "user" = Ret user
               ∧ get_prop success "attributes" = Ret attributes
         | SAML1_1 =>
             ∃ result samlResponse elements fields subject,
               parseXML (JString body) = Parsed result
               ∧ saml_response result = Ret samlResponse
               ∧ saml_status samlResponse = Ret (JString "Success")
               ∧ saml_attribute_elements samlResponse = Ret elements
               ∧ saml_attributes
                   match elements with JArray l => l | other => [other] end []
                 = Ret fields
               ∧ attributes = JObject fields
               ∧ (assertion ← get_prop samlResponse "assertion";
                  auth ← get_prop assertion "authenticationstatement";
                  get_prop auth "subject") = Ret subject
               ∧ get_prop subject "nameidentifier" = Ret user
         end)
    ∧ (∀ msg,
         args = CbErr msg →
         msg = msg_bad ∨ msg = msg_failed ∨ ∃ code, msg = msg_failed_code code).
Proof.
  destruct (validate_returns parseXML adapter body) as [args Hargs].
  exists args. split; [exact Hargs|]. split_and!.
  - intros Hv Hp. destruct adapter; [now destruct Hv|..];
      unfold _validate in Hargs; rewrite Hp in Hargs; now injection Hargs as <-.
  - intros result e Hp [[Hv T] | [Hv T]]; unfold _validate in Hargs.
    + destruct Hv as [-> | ->]; rewrite Hp in Hargs; cbn in Hargs;
        rewrite T in Hargs; now injection Hargs as <-.
    + subst adapter. rewrite Hp in Hargs. cbn in Hargs.
      rewrite T in Hargs. now injection Hargs as <-.
  - intros user attributes. split.
    2: { intros Hshape.
         assert (Hok : _validate parseXML adapter body = Ret (CbOk user attributes));
           [|congruence].
         unfold _validate. destruct adapter.
         - destruct Hshape as (rest & -> & -> & ->). apply validate_v1_yes.
         - destruct Hshape as (result & sr & failure & success & -> & H).
           cbn [validate_v2_parsed].
           assert (T : validate_v2_try result = Ret (CbOk user attributes)).
           { apply validate_v2_try_success. now exists sr, failure, success. }
           now rewrite T.
         - destruct Hshape as (result & sr & failure & success & -> & H).
           cbn [validate_v2_parsed].
           assert (T : validate_v2_try result = Ret (CbOk user attributes)).
           { apply validate_v2_try_success. now exists sr, failure, success. }
           now rewrite T.
         - destruct Hshape as (result & r & el & fs & sub & -> & H).
           cbn [validate_saml_parsed].
           assert (T : validate_saml_try result = Ret (CbOk user attributes)).
           { apply validate_saml_try_ok. now exists r, el, fs, sub. }
           now rewrite T. }
    intros ->. unfold _validate in Hargs. destruct adapter.
    + unfold validate_v1 in Hargs.
      destruct (split_on_first newline body)
        as (first & others & Hsplit & Hfree & Hshape).
      rewrite Hsplit in Hargs. unfold index_str at 1 3 in Hargs.
      cbn [lookup list_lookup strict_eq_str] in Hargs.
      destruct (String.eqb first "yes") eqn:Hyes.
      * apply String.eqb_eq in Hyes as ->.
        destruct Hshape as [[-> ->] | (rest & -> & ->)]; [discriminate Hargs|].
        destruct (split_on_first newline rest) as (second & more & Hrest & _).
        rewrite Hrest in Hargs. cbn in Hargs. injection Hargs as <- <-.
        exists rest. rewrite Hrest. now repeat split.
      * cbn [andb] in Hargs. destruct (String.eqb first "no"); discriminate Hargs.
    + destruct (parseXML (JString body)) as [|result]; [discriminate Hargs|].
      apply try_catch_ok in Hargs; [|discriminate].
      apply validate_v2_try_success in Hargs as (sr & failure & success & H).
      now exists result, sr, failure, success.
    + destruct (parseXML (JString body)) as [|result]; [discriminate Hargs|].
      apply try_catch_ok in Hargs; [|discriminate].
      apply validate_v2_try_success in Hargs as (sr & failure & success & H).
      now exists result, sr, failure, success.
    + destruct (parseXML (JString body)) as [|result]; [discriminate Hargs|].
      apply try_catch_ok in Hargs; [|discriminate].
      apply validate_saml_try_ok in Hargs as (r & el & fs & sub & H).
      now exists result, r, el, fs, sub.
  - intros msg ->. unfold _validate in Hargs. destruct adapter.
    + unfold validate_v1 in Hargs.
      destruct (_ && _); [discriminate Hargs|].
      destruct (strict_eq_str _ _); injection Hargs as <-; auto.
    + destruct (parseXML (JString body)) as [|result];
        [injection Hargs as <-; now left|]. cbn in Hargs.
      destruct (validate_v2_try result) as [a| |] eqn:T; cbn in Hargs;
        [|injection Hargs as <-; auto | discriminate Hargs].
      injection Hargs as ->. apply validate_v2_try_message in T as [-> | (? & ? & ? & code & H)]; auto.
      right. right. exists code. apply H.
    + destruct (parseXML (JString body)) as [|result];
        [injection Hargs as <-; now left|]. cbn in Hargs.
      destruct (validate_v2_try result) as [a| |] eqn:T; cbn in Hargs;
        [|injection Hargs as <-; auto | discriminate Hargs].
      injection Hargs as ->. apply validate_v2_try_message in T as [-> | (? & ? & ? & code & H)]; auto.
      right. right. exists code. apply H.
    + destruct (parseXML (JString body)) as [|result];
        [injection Hargs as <-; now left|]. cbn in Hargs.
      destruct (validate_saml_try result) as [a| |] eqn:T; cbn in Hargs;
        [|injection Hargs as <-; auto | discriminate Hargs].
      injection Hargs as ->. apply validate_saml_try_message in T. auto.
Qed.

Lemma validate_never_raises_witness :
  _validate Sample.parseXML V3 "<<<" = Ret (CbErr msg_bad).
Proof.
  destruct (validate_never_raises Sample.parseXML V3 "<<<") as (args & Hv & Hbad & _).
  rewrite Hv. f_equal. apply Hbad; [discriminate | reflexivity].
Defined.

(** C2 (as stated) fails on input that names nobody: a 1.0 body with "yes"
    and an empty second line is answered with success and the empty
    string as identity, and a SAML response whose subject has no name
    identifier with success and [undefined] as identity. *)
Lemma malformed_success_counterexample :
  _validate Sample.parseXML V1 ("yes" +:+ String newline "")
  = Ret (CbOk (JString "") JUndefined)
  ∧ _validate (Fixture.parse_to (Fixture.saml_success Fixture.anonymous_assertion))
      SAML1_1 "anonymous"
    = Ret (CbOk JUndefined (JObject [("mail", JString "alice@example.org")])).
Proof. split; reflexivity. Qed.

Lemma split_on_free sep s : free_of sep s = true → split_on sep s = [s].
Proof.
  induction s as [|c r IH]; simpl; [reflexivity|].
  intros [Hc Hr]%andb_prop. apply negb_true_iff in Hc.
  rewrite Hc, (IH Hr). reflexivity.
Qed.

Lemma split_on_qname sep a b :
  free_of sep a = true → free_of sep b = true →
  split_on sep (a +:+ String sep b) = [a; b].
Proof.
  intros Ha Hb. induction a as [|c r IH]; simpl.
  - rewrite Ascii.eqb_refl, (split_on_free _ _ Hb). reflexivity.
  - simpl in Ha. apply andb_prop in Ha as [Hc Hr]. apply negb_true_iff in Hc.
    rewrite Hc. simpl in IH. rewrite (IH Hr). reflexivity.
Qed.

(** C5 (as the code has it). When the status-code attribute of a parsed
    SAML response is a string, the status code is the second
    colon-separated segment of it ([undefined] when it has no colon); any
    code other than ["Success"] gives the failure message carrying that
    code; and for a value with exactly one colon, a qualified name, the code
    is what follows the colon. *)
Theorem saml_status_is_second_segment (result samlResponse : jsval) (value : string) :
  saml_response result = Ret samlResponse →
  saml_status_value samlResponse = Ret (JString value) →
  let code := index_str (split_on colon value) 1 in
  saml_status samlResponse = Ret code
  ∧ (strict_eq_str code "Success" = false →
     validate_saml_parsed (Parsed result)
     = Ret (CbErr ("CAS authentication failed (" +:+ to_string code +:+ ").")))
  ∧ (∀ prefix name,
       value = prefix +:+ String colon name →
       free_of colon prefix = true → free_of colon name = true →
       code = JString name ∧ after_last_colon value = name).
Proof.
  intros Hr Hv code.
  assert (Hs : saml_status samlResponse = Ret code).
  { unfold saml_status. rewrite Hv. reflexivity. }
  split; [exact Hs|]. split.
  - intros Hne. simpl. unfold validate_saml_try.
    rewrite Hr. simpl. rewrite Hs. simpl. rewrite Hne. reflexivity.
  - intros prefix name -> Hp Hn. subst code. unfold after_last_colon.
    rewrite (split_on_qname _ _ _ Hp Hn). split; reflexivity.
Qed.

Lemma saml_status_is_second_segment_witness :
  validate_saml_parsed (Parsed (Sample.saml_doc "samlp:Requester"))
  = Ret (CbErr "CAS authentication failed (Requester).").
Proof.
  refine (proj1 (proj2 (saml_status_is_second_segment
            (Sample.saml_doc "samlp:Requester") _ "samlp:Requester" _ _)) _);
    reflexivity.
Defined.

(** C5 (as stated) fails on a status value with two colons: the code reads
    the middle segment, not what follows the last colon. *)
Lemma saml_status_rule_counterexample :
  ¬ saml_status_rule_as_stated
      (Sample.saml_doc "urn:oasis:Requester") "urn:oasis:Requester".
Proof.
  intros (r & Hr & Hs & _).
  vm_compute in Hr. injection Hr as <-.
  vm_compute in Hs. discriminate.
Qed.

(** ** The decision engine *)

Import Eff.

(** Runs the monadic plumbing of a handler applied to a world. *)
Ltac proj_M :=
  cbn [await fst snd ctx store http_log next_calls url query request_body
       session response slots externalKey status body redirect_to].
Ltac run_M :=
  cbv beta iota zeta delta
    [mbind M_bind mret M_ret lift read update Eff.try_catch detached
     await_new_promise set_status set_body redirect session_get session_set
     query_get call_next http on_store after];
  proj_M.

Section Engine.
Context {St : Type} {store_ops : SessionStore St}.
Variable parseXML : jsval -> parse_result.
Variable url_parse : string -> parsed_url.
Variable url_format : string -> list (string * jsval) -> string.
Variable http_respond : list http_event -> settled string.
Variable now_ms : Z.
Variable now_iso : string.
Variable adapter : version.
Abbreviation handle := (_handle parseXML url_parse url_format http_respond now_ms now_iso adapter).
Abbreviation decides := (decision parseXML url_parse url_format http_respond adapter).

Lemma build_request_get (this : Cas) (w : world St) :
  cas_version this ≠ SAML1_1 →
  build_request url_parse url_format now_ms now_iso adapter this w
  = (Ret (get_request url_parse url_format adapter this (ctx w)), w).
Proof.
  intros Hv. unfold build_request.
  destruct (cas_version this); try congruence; reflexivity.
Qed.

Lemma request_get (this : Cas) (w : world St) ro :
  cas_version this ≠ SAML1_1 →
  _request http_respond this ro w
  = (await (http_respond (http_log (after (http Ended) (after (http (Opened ro)) w)))),
     after (http Ended) (after (http (Opened ro)) w)).
Proof.
  intros Hv. unfold _request.
  destruct (cas_version this); try congruence; reflexivity.
Qed.

Lemma run_bind {A B} (m : M St A) (k : A → M St B) w :
  (m ≫= k) w = match m w with
               | (Ret a, w') => k a w'
               | (Throw e, w') => (Throw e, w')
               | (Pending, w') => (Pending, w')
               end.
Proof. reflexivity. Qed.

Lemma on_validated_err (this : Cas) msg (w : world St) :
  on_validated this (CbErr msg) w = (Ret true, after (set_status 401) w).
Proof. reflexivity. Qed.

Lemma on_validated_plain (this : Cas) user attributes (w : world St) :
  single_logout this = false →
  on_validated this (CbOk user attributes) w
  = (Ret true, after (commit_identity this user attributes) w).
Proof.
  intros Hslo. unfold on_validated, commit_identity. rewrite Hslo. run_M.
  destruct (truthy (session_info this)); reflexivity.
Qed.

Lemma on_validated_bound (this : Cas) user attributes (w : world St) :
  single_logout this = true →
  (register_binding (ctx w) (store w)).1 = Fulfilled tt →
  on_validated this (CbOk user attributes) w
  = (Ret true, after (commit_identity this user attributes)
                 (after (on_store (register_binding (ctx w))) w)).
Proof.
  intros Hslo Hreg. unfold on_validated, commit_identity. rewrite Hslo.
  unfold register_binding, query_ticket in *. run_M. rewrite Hreg. run_M.
  destruct (truthy (session_info this)); reflexivity.
Qed.

Lemma on_validated_unbound (this : Cas) user attributes (w : world St) e :
  single_logout this = true →
  (register_binding (ctx w) (store w)).1 = Rejected e →
  on_validated this (CbOk user attributes) w
  = (Ret true, after (on_store (register_binding (ctx w))) w).
Proof.
  intros Hslo Hreg. unfold on_validated. rewrite Hslo.
  unfold register_binding, query_ticket in *. run_M. rewrite Hreg. reflexivity.
Qed.

Lemma handleTicket_run (this : Cas) (w : world St) :
  cas_version this ≠ SAML1_1 →
  _handleTicket parseXML url_parse url_format http_respond now_ms now_iso adapter this w
  = let w1 := round_trip url_parse url_format adapter this w in
    match http_respond (http_log w1) with
    | Rejected _ => (Ret tt, after (set_status 401) w1)
    | Fulfilled body =>
        match _validate parseXML adapter body with
        | Ret args => (Ret tt, after (on_validated this args) w1)
        | _ => (Ret tt, after (set_status 401) w1)
        end
    end.
Proof.
  intros Hv. unfold _handleTicket.
  rewrite run_bind, build_request_get by done.
  unfold Eff.try_catch. rewrite run_bind, request_get by done.
  fold (round_trip url_parse url_format adapter this w).
  destruct (http_respond _) as [body|e]; [|reflexivity].
  unfold await, await_new_promise. rewrite run_bind. unfold lift at 1.
  destruct (validate_returns parseXML adapter body) as (args & ->).
  unfold detached, after.
  destruct args as [msg|user attributes].
  - rewrite on_validated_err. reflexivity.
  - destruct (single_logout this) eqn:Hslo.
    + destruct ((register_binding (ctx (round_trip url_parse url_format adapter this w))
                  (store (round_trip url_parse url_format adapter this w))).1) eqn:Hreg.
      * destruct a. rewrite on_validated_bound by done. reflexivity.
      * rewrite (on_validated_unbound _ _ _ _ e) by done. reflexivity.
    + rewrite on_validated_plain by done. reflexivity.
Qed.

(** C1 (as the code has it). Every request goes by one row of the
    decision table: an authenticated request is redirected to
    [redirectTo] (bounce_redirect) or let through; otherwise dev mode
    writes the dev identity and attributes and lets it through;
    otherwise [block] answers 401; otherwise a ticket is validated, where
    a network error or a failure answers 401 and a success writes the
    identity, writes the attributes when an attributes slot is
    configured, and redirects to the saved return URL, unless single
    logout is enabled and registering the binding fails, in which case
    nothing more is done; otherwise the return URL is saved and the
    response redirects to the CAS login. The ticket row of an instance
    configured for saml1.1 is left out. *)
Theorem handle_decision (this : Cas) (authType : AUTH_TYPE) (w : world St) :
  cas_version this ≠ SAML1_1
  ∨ ¬ (unauthenticated this authType w ∧ truthy (query_ticket (ctx w)) = true) →
  decides this authType w (handle this authType w).
Proof.
  intros Hv. unfold _handle. rewrite run_bind. cbn.
  fold (identity_slot this (ctx w)).
  destruct (truthy (identity_slot this (ctx w))) eqn:Hid.
  { destruct authType; cbn.
    - apply authenticated_proceed; [done|discriminate].
    - apply authenticated_redirect; done.
    - apply authenticated_proceed; [done|discriminate]. }
  destruct (is_dev_mode this) eqn:Hdev.
  { cbn. now apply dev_mode_short_circuit. }
  assert (Hrest : authType ≠ BLOCK →
     decides this authType w ((ticket ← query_get "ticket";
                if truthy ticket
                then
                 _handleTicket parseXML url_parse url_format http_respond
                   now_ms now_iso adapter this
                else _login url_parse url_format this) w)).
  2: { destruct authType; [apply Hrest; discriminate .. | now apply blocked]. }
  intros Hnb.
  assert (Hu : unauthenticated this authType w) by done.
  rewrite run_bind. cbn. fold (query_ticket (ctx w)).
  destruct (truthy (query_ticket (ctx w))) eqn:Ht.
  2: { eapply eq_ind; [now apply login_redirect | reflexivity]. }
  destruct Hv as [Hv | Hv]; [|now destruct Hv].
  rewrite handleTicket_run by done. cbv zeta.
  destruct (http_respond _) as [body|e] eqn:Hresp.
  2: { now apply (ticket_network_error _ _ _ _ _ _ _ _ e). }
  destruct (validate_returns parseXML adapter body) as (args & Hargs).
  rewrite Hargs. destruct args as [msg|user attributes].
  - unfold after at 1. rewrite on_validated_err. cbn [snd].
    now apply (ticket_failure _ _ _ _ _ _ _ _ body msg).
  - unfold after at 1.
    destruct (single_logout this) eqn:Hslo.
    + destruct ((register_binding (ctx w) (store w)).1) as [[]|e] eqn:Hreg.
      * rewrite on_validated_bound by (exact Hslo || exact Hreg). cbn [snd].
        change (ctx (round_trip url_parse url_format adapter this w)) with (ctx w).
        now apply (ticket_success_bound _ _ _ _ _ _ _ _ body).
      * rewrite (on_validated_unbound _ _ _ _ e) by (exact Hslo || exact Hreg).
        cbn [snd].
        change (ctx (round_trip url_parse url_format adapter this w)) with (ctx w).
        now apply (ticket_success_unbound _ _ _ _ _ _ _ _ body user attributes e).
    + rewrite on_validated_plain by done. cbn [snd].
      now apply (ticket_success _ _ _ _ _ _ _ _ body).
Qed.

(** C9. [block] never opens a request towards the CAS server; and with
    nobody logged in and dev mode off it answers 401 whatever the query
    holds, leaves the store and the session alone, and does not pass the
    request on. *)
Theorem block_precedes_ticket (this : Cas) (w : world St) :
  http_log (handle this BLOCK w).2 = http_log w
  ∧ (truthy (identity_slot this (ctx w)) = false →
     is_dev_mode this = false →
     ∃ w',
       handle this BLOCK w = (Ret tt, w')
       ∧ status (response (ctx w')) = Some 401
       ∧ http_log w' = http_log w
       ∧ store w' = store w
       ∧ session (ctx w') = session (ctx w)
       ∧ redirect_to (response (ctx w')) = redirect_to (response (ctx w))
       ∧ next_calls w' = next_calls w).
Proof.
  split.
  - unfold _handle. rewrite run_bind. run_M.
    destruct (truthy _); [reflexivity|]. destruct (is_dev_mode this); reflexivity.
  - intros Hid Hdev. eexists. split.
    { unfold _handle. rewrite run_bind. run_M.
      fold (identity_slot this (ctx w)). rewrite Hid, Hdev. reflexivity. }
    repeat split.
Qed.

Lemma saml_build_request_raises (this : Cas) (w : world St) :
  cas_version this = SAML1_1 →
  build_request url_parse url_format now_ms now_iso adapter this w
  = (Throw (ReferenceError "req"), w).
Proof. intros Hv. unfold build_request. rewrite Hv. reflexivity. Qed.

Lemma saml_handleTicket_raises (this : Cas) (w : world St) :
  cas_version this = SAML1_1 →
  _handleTicket parseXML url_parse url_format http_respond now_ms now_iso adapter this w
  = (Throw (ReferenceError "req"), w).
Proof.
  intros Hv. unfold _handleTicket.
  rewrite run_bind, saml_build_request_raises by done. reflexivity.
Qed.

Lemma saml_request_raises (this : Cas) (w : world St) ro :
  cas_version this = SAML1_1 →
  _request http_respond this ro w
  = (Throw (ReferenceError "post_data"), after (http (Opened ro)) w).
Proof. intros Hv. unfold _request. rewrite Hv. reflexivity. Qed.
End Engine.



(** ** Single logout *)

Section Logout.
Context {St : Type} {store_ops : SessionStore St}.
Variable parseXML : jsval -> parse_result.

Lemma truthy_get_prop v k : truthy v = true → ∃ x, get_prop v k = Ret x.
Proof. destruct v; simpl; try discriminate; eauto. Qed.

(** Once the payload has parsed to a logout request, the callback calls
    [resolve()] whatever the store does, and leaves the body alone. *)
Lemma on_logout_parsed_resolves (result logoutrequest st : jsval) (w : world St) :
  get_prop result "logoutrequest" = Ret logoutrequest →
  get_prop logoutrequest "sessionindex" = Ret st →
  ∃ w', on_logout_parsed (Parsed result) w = (Ret true, w')
        ∧ body (response (ctx w')) = body (response (ctx w)).
Proof.
  intros Hlr Hst. unfold on_logout_parsed, downgrade. run_M.
  rewrite Hlr, Hst.
  destruct (store_get st ONE_DAY (JObject []) (store w)) as [[sessionResult|e] s1];
    proj_M; [|eauto].
  destruct (truthy sessionResult) eqn:Hsr; proj_M.
  - destruct (truthy_get_prop sessionResult "key" Hsr) as [key ->]. proj_M.
    destruct (truthy key); proj_M.
    + destruct (store_destroy key s1) as [[[]|e] s2]; proj_M; [|eauto].
      destruct (store_destroy st s2) as [[[]|e] s3]; proj_M; eauto.
    + destruct (store_destroy st s1) as [[[]|e] s2]; proj_M; eauto.
  - destruct (store_destroy st s1) as [[[]|e] s2]; proj_M; eauto.
Qed.

Lemma handle_single_logout_run (this : Cas) (w : world St) payload result lr st :
  single_logout this = true →
  get_prop (request_body (ctx w)) "logoutRequest" = Ret payload →
  parseXML payload = Parsed result →
  get_prop result "logoutrequest" = Ret lr →
  get_prop lr "sessionindex" = Ret st →
  handle_single_logout parseXML this w
  = (Ret tt, after (set_body "ok") (after (on_logout_parsed (Parsed result)) w)).
Proof.
  intros Hslo Hp Hx Hlr Hst. unfold handle_single_logout. rewrite Hslo. cbn [negb].
  destruct (on_logout_parsed_resolves result lr st w Hlr Hst) as (w' & Hrun & _).
  run_M. rewrite Hp. proj_M. rewrite Hx, Hrun. reflexivity.
Qed.

(** C3 (as the code has it). When single logout is disabled, or when the
    payload parses to a logout request, the handler returns with the body
    "ok", whether or not the binding lookup or a destroy fails. *)
Theorem single_logout_acknowledged (this : Cas) (w : world St) :
  single_logout this = false ∨ (∃ st, names_ticket parseXML (ctx w) st) →
  acknowledged (handle_single_logout parseXML this w).
Proof.
  intros [Hoff | [st (payload & result & lr & Hp & Hx & Hlr & Hst)]].
  - unfold handle_single_logout. rewrite Hoff. split; reflexivity.
  - destruct (single_logout this) eqn:Hslo.
    + rewrite (handle_single_logout_run this w payload result lr st) by done.
      split; reflexivity.
    + unfold handle_single_logout. rewrite Hslo. split; reflexivity.
Qed.

(** C8. A binding is found for the notified ticket, destroying the bound
    session succeeds and destroying the binding fails: the handler still
    returns with the body "ok", the status is 202, and the store is left as
    the failed destroy left it, so nothing is put back. *)
Theorem binding_destroy_failure_is_partial_success (this : Cas) (w : world St)
    (st sessionResult key : jsval) (s1 s2 s3 : St) (e : exn) :
  single_logout this = true →
  names_ticket parseXML (ctx w) st →
  store_get st ONE_DAY (JObject []) (store w) = (Fulfilled sessionResult, s1) →
  truthy sessionResult = true →
  get_prop sessionResult "key" = Ret key →
  truthy key = true →
  store_destroy key s1 = (Fulfilled tt, s2) →
  store_destroy st s2 = (Rejected e, s3) →
  ∃ w',
    handle_single_logout parseXML this w = (Ret tt, w')
    ∧ status (response (ctx w')) = Some 202
    ∧ body (response (ctx w')) = Some "ok"
    ∧ store w' = s3.
Proof.
  intros Hslo (payload & result & lr & Hp & Hx & Hlr & Hst) Hget Hsr Hkey Htk Hd1 Hd2.
  rewrite (handle_single_logout_run this w payload result lr st) by done.
  eexists. split; [reflexivity|].
  unfold on_logout_parsed, downgrade. run_M. rewrite Hlr, Hst, Hget. proj_M.
  rewrite Hsr, Hkey. proj_M. rewrite Htk. proj_M. rewrite Hd1. proj_M.
  rewrite Hd2. proj_M.
  repeat split.
Qed.
End Logout.


(** ** Session writes *)

Section SessionWrites.
Context {St : Type} {store_ops : SessionStore St}.
Variable parseXML : jsval -> parse_result.
Variable url_parse : string -> parsed_url.
Variable url_format : string -> list (string * jsval) -> string.
Variable http_respond : list http_event -> settled string.
Variable now_ms : Z.
Variable now_iso : string.
Variable adapter : version.

Abbreviation handle' :=
  (_handle parseXML url_parse url_format http_respond now_ms now_iso adapter).

Lemma constructor_session_info_default (options : CAS_options) (this : Cas) :
  constructor url_parse (Some options) = Ret this →
  o_session_info options = JUndefined →
  session_info this = JBool false.
Proof.
  unfold constructor. intros Hc Hinfo.
  destruct (o_cas_url options), (o_service_url options); try discriminate.
  destruct (match or_default (o_cas_version options) (JString "3.0") with
            | JString s => version_of_string s
            | _ => None
            end) as [v|]; [|discriminate].
  injection Hc as <-. cbn [session_info]. rewrite Hinfo. now destruct v.
Qed.

Lemma commit_identity_slots (this : Cas) (user attributes : jsval) (w : world St) :
  slots (session (ctx (after (commit_identity this user attributes) w)))
  = if truthy (session_info this)
    then <[to_string (session_info this) := attribute_map attributes]>
           (<[to_string (session_name this) := user]> (slots (session (ctx w))))
    else <[to_string (session_name this) := user]> (slots (session (ctx w))).
Proof.
  unfold commit_identity. run_M. destruct (truthy (session_info this)); reflexivity.
Qed.

Lemma on_validated_slots (this : Cas) (user attributes : jsval) (w : world St) :
  let w' := after (on_validated this (CbOk user attributes)) w in
  let committed :=
    if truthy (session_info this)
    then <[to_string (session_info this) := attribute_map attributes]>
           (<[to_string (session_name this) := user]> (slots (session (ctx w))))
    else <[to_string (session_name this) := user]> (slots (session (ctx w))) in
  (single_logout this = false → slots (session (ctx w')) = committed)
  ∧ (slots (session (ctx w')) = committed
     ∨ slots (session (ctx w')) = slots (session (ctx w))).
Proof.
  intros w' committed. subst w'. unfold after at 1 2 3.
  destruct (single_logout this) eqn:Hslo.
  - split; [discriminate|].
    destruct ((register_binding (ctx w) (store w)).1) as [[]|e] eqn:Hreg.
    + rewrite on_validated_bound by done. cbn [snd]. left.
      now rewrite commit_identity_slots.
    + rewrite (on_validated_unbound _ _ _ _ e) by done. right. reflexivity.
  - rewrite on_validated_plain by done. cbn [snd].
    rewrite commit_identity_slots. split; [reflexivity | now left].
Qed.


(** C10. The dev-mode branch writes the dev attributes under the key that
    [session_info] prints as, configured or not: an instance built without
    [session_info] holds [false] there, so the attributes land under the
    key "false". After a successful validation the attributes are written
    only when [session_info] is truthy, and apart from the identity slot
    and that attributes slot every slot keeps its value. *)
Theorem dev_mode_writes_attributes_unconditionally
    (options : CAS_options) (this : Cas) (authType : AUTH_TYPE)
    (user attributes : jsval) (w : world St) :
  (constructor url_parse (Some options) = Ret this →
   o_session_info options = JUndefined →
   session_info this = JBool false ∧ to_string (session_info this) = "false")
  ∧ (truthy (identity_slot this (ctx w)) = false →
     is_dev_mode this = true →
     ∃ w', handle' this authType w = (Ret tt, w')
           ∧ slots (session (ctx w'))
             = <[to_string (session_info this) := dev_mode_info this]>
                 (<[to_string (session_name this) := dev_mode_user this]>
                    (slots (session (ctx w)))))
  ∧ (let w' := after (on_validated this (CbOk user attributes)) w in
     (single_logout this = false →
      slots (session (ctx w'))
      = if truthy (session_info this)
        then <[to_string (session_info this) := attribute_map attributes]>
               (<[to_string (session_name this) := user]> (slots (session (ctx w))))
        else <[to_string (session_name this) := user]> (slots (session (ctx w))))
     ∧ ∀ k, k ≠ to_string (session_name this) →
            truthy (session_info this) = false ∨ k ≠ to_string (session_info this) →
            slots (session (ctx w')) !! k = slots (session (ctx w)) !! k).
Proof.
  split; [|split].
  - intros Hc Hinfo.
    rewrite (constructor_session_info_default options this Hc Hinfo). now split.
  - intros Hid Hdev. eexists. split.
    + unfold _handle. rewrite run_bind. run_M.
      fold (identity_slot this (ctx w)). rewrite Hid, Hdev. reflexivity.
    + reflexivity.
  - intros w'.
    destruct (on_validated_slots this user attributes w) as [Hplain Hany].
    split; [exact Hplain|]. intros k Hname Hinfo.
    fold w' in Hany. destruct Hany as [-> | ->]; [|reflexivity].
    destruct (truthy (session_info this)).
    + destruct Hinfo as [|Hinfo]; [discriminate|].
      rewrite !lookup_insert_ne by congruence. reflexivity.
    + rewrite lookup_insert_ne by congruence. reflexivity.
Qed.
End SessionWrites.




(** ** Bindings over the life of an instance *)

Section Bindings.
Variable parseXML : jsval -> parse_result.
Variable url_parse : string -> parsed_url.
Variable url_format : string -> list (string * jsval) -> string.
Variable http_respond : list http_event -> settled string.
Variable now_ms : Z.
Variable now_iso : string.
Variable adapter : version.
Variable this : Cas.
Variable is_ticket : string → bool.

Abbreviation handle_ := (_handle parseXML url_parse url_format http_respond now_ms now_iso adapter this).
Abbreviation handleTicket_ := (_handleTicket parseXML url_parse url_format http_respond now_ms now_iso adapter this).
Abbreviation step_ := (step parseXML url_parse url_format http_respond now_ms now_iso adapter this).
Abbreviation run_ := (run parseXML url_parse url_format http_respond now_ms now_iso adapter this).
Abbreviation validated_ := (validated parseXML url_parse url_format http_respond now_ms now_iso adapter this).
Abbreviation validation_ := (validation parseXML url_parse url_format http_respond now_ms now_iso adapter this).
Abbreviation live_ := (live parseXML url_parse url_format http_respond now_ms now_iso adapter this).
Abbreviation live_step_ := (live_step parseXML url_parse url_format http_respond now_ms now_iso adapter this).
Abbreviation round_trip_ := (round_trip url_parse url_format adapter this).

Lemma handle_store (authType : AUTH_TYPE) (w : world ref_store) :
  store (handle_ authType w).2
  = if carries_fresh_ticket this authType (ctx w)
    then store (handleTicket_ w).2
    else store w.
Proof.
  unfold _handle, carries_fresh_ticket, _login, query_ticket, identity_slot. run_M.
  destruct (truthy (default JUndefined (slots (session (ctx w)) !! _)));
    [now destruct authType|].
  destruct (is_dev_mode this); [reflexivity|].
  destruct authType; cbn [negb andb]; try reflexivity;
    destruct (truthy (default JUndefined (assoc "ticket" (query (ctx w)))));
    reflexivity.
Qed.

Lemma handleTicket_store (w : world ref_store) :
  cas_version this ≠ SAML1_1 →
  store (handleTicket_ w).2
  = match http_respond (http_log (round_trip_ w)) with
    | Fulfilled body =>
        match _validate parseXML adapter body with
        | Ret (CbOk _ _) =>
            if single_logout this then (register_binding (ctx w) (store w)).2
            else store w
        | _ => store w
        end
    | Rejected _ => store w
    end.
Proof.
  intros Hv. rewrite handleTicket_run by done. cbv zeta.
  destruct (http_respond _) as [body|e]; [|reflexivity].
  destruct (validate_returns parseXML adapter body) as (args & ->).
  destruct args as [msg|user attributes]; [reflexivity|].
  unfold after at 1.
  destruct (single_logout this) eqn:Hslo.
  - destruct ((register_binding (ctx w) (store w)).1) as [[]|e] eqn:Hreg.
    + rewrite on_validated_bound by (exact Hslo || exact Hreg). cbn [snd].
      unfold commit_identity. run_M. destruct (truthy (session_info this)); reflexivity.
    + rewrite (on_validated_unbound _ _ _ _ e) by (exact Hslo || exact Hreg). reflexivity.
  - rewrite on_validated_plain by done. cbn [snd].
    unfold commit_identity. run_M. destruct (truthy (session_info this)); reflexivity.
Qed.

Lemma validation_round_trip (c : koa_ctx) (s : ref_store) :
  cas_version this ≠ SAML1_1 →
  validation_ c
  = match http_respond (http_log (round_trip_ (World c s [] 0%nat))) with
    | Fulfilled body => _validate parseXML adapter body
    | Rejected e => Throw e
    end.
Proof.
  intros Hv. unfold validation.
  rewrite run_bind, build_request_get by done.
  rewrite run_bind, request_get by done.
  change (http_log (after _ (after _ (World c (RefStore ∅ []) [] 0%nat))))
    with (http_log (round_trip_ (World c s [] 0%nat))).
  destruct (http_respond _); reflexivity.
Qed.

Lemma validation_saml (c : koa_ctx) :
  cas_version this = SAML1_1 → validation_ c = Throw (ReferenceError "req").
Proof.
  intros Hv. unfold validation.
  rewrite run_bind, saml_build_request_raises by done. reflexivity.
Qed.

(** What a request does to the store. *)
Lemma request_store (authType : AUTH_TYPE) (c : koa_ctx) (s : ref_store) :
  serve (handle_ authType) c s
  = match validated_ authType c with
    | Some _ => if single_logout this then (register_binding c s).2 else s
    | None => s
    end.
Proof.
  unfold serve, validated. rewrite handle_store. cbn [ctx store].
  destruct (carries_fresh_ticket this authType c); [|reflexivity].
  destruct (cas_version this) eqn:Hv.
  4: { rewrite saml_handleTicket_raises, validation_saml by done. reflexivity. }
  all: rewrite handleTicket_store, (validation_round_trip c s) by congruence.
  all: destruct (http_respond _) as [body|e]; [|reflexivity].
  all: destruct (validate_returns parseXML adapter body) as (args & ->).
  all: destruct args; reflexivity.
Qed.

(** What a logout notification does to a store that does not fail. *)
Lemma notification_store (c : koa_ctx) (s : ref_store) :
  faults s = [] →
  serve (handle_single_logout parseXML this) c s
  = if single_logout this then
      match notified parseXML c with
      | Some t => RefStore (reconciled t (entries s)) []
      | None => s
      end
    else s.
Proof.
  destruct s as [m fs]. cbn [faults]. intros ->.
  unfold serve, notified.
  destruct (single_logout this) eqn:Hslo.
  2: { unfold handle_single_logout. rewrite Hslo. reflexivity. }
  destruct (get_prop (request_body c) "logoutRequest") as [payload| |] eqn:Hp.
  2,3: unfold handle_single_logout; rewrite Hslo; cbn [negb]; run_M; rewrite Hp; reflexivity.
  destruct (parseXML payload) as [|result] eqn:Hx.
  { unfold handle_single_logout. rewrite Hslo. cbn [negb]. run_M. rewrite Hp. proj_M.
    rewrite Hx. reflexivity. }
  destruct (get_prop result "logoutrequest") as [lr| |] eqn:Hlr; cbn [mbind completion_bind].
  2,3: unfold handle_single_logout; rewrite Hslo; cbn [negb]; run_M; rewrite Hp; proj_M;
       rewrite Hx; unfold on_logout_parsed; run_M; rewrite Hlr; reflexivity.
  destruct (get_prop lr "sessionindex") as [st| |] eqn:Hst.
  2,3: unfold handle_single_logout; rewrite Hslo; cbn [negb]; run_M; rewrite Hp; proj_M;
       rewrite Hx; unfold on_logout_parsed; run_M; rewrite Hlr, Hst; reflexivity.
  rewrite (handle_single_logout_run parseXML this _ payload result lr st) by done.
  unfold on_logout_parsed, downgrade, reconciled. run_M. rewrite Hlr, Hst.
  cbn [store_get store_destroy ref_store_ops next_fault after_call faults entries
       head tail default fst snd await].
  proj_M.
  generalize (default JNull (fst <$> m !! to_string st)). intros r.
  destruct (truthy r) eqn:Hr.
  - destruct (truthy_get_prop r "key" Hr) as [key ->].
    destruct (truthy key); reflexivity.
  - destruct (get_prop r "key"); reflexivity.
Qed.

(** One event keeps the store and the live tickets in step. *)
Lemma bindings_match_step (s : ref_store) (tickets : gset string) (e : event) :
  well_scoped parseXML is_ticket e →
  bindings_match this is_ticket s tickets →
  bindings_match this is_ticket (step_ s e) (live_step_ tickets e).
Proof.
  intros Hscope Hm. pose proof Hm as [Hfaults Hinv].
  destruct e as [authType c|c|k sess maxAge|k]; cbn [step live_step well_scoped] in *.
  - rewrite request_store.
    destruct (validated_ authType c) as [t0|] eqn:Hval; [|exact Hm].
    assert (Ht0 : t0 = to_string (query_ticket c)).
    { unfold validated in Hval. destruct (carries_fresh_ticket _ _ _); [|discriminate].
      destruct (validation_ c) as [[]| |]; congruence. }
    destruct (single_logout this) eqn:Hslo.
    + destruct s as [m fs]. cbn [faults] in Hfaults. subst fs.
      split; [reflexivity|]. intros t Ht. specialize (Hinv t Ht). rewrite ?Hslo.
      cbn [register_binding store_set ref_store_ops snd after_call next_fault
           faults entries head default] in *.
      rewrite <- Ht0. destruct (decide (t0 = t)) as [->|Hne].
      * rewrite lookup_insert_eq. split; [done|]. split; [set_solver|].
        split; [done|]. eexists. split; [reflexivity | exact Hscope].
      * rewrite lookup_insert_ne by done.
        destruct (m !! t) as [[v ttl]|].
        -- destruct Hinv as (? & ? & ? & ?).
           split; [done|]. split; [set_solver|]. split; done.
        -- intros [_ Hin]. apply Hinv. split; [done|set_solver].
    + split; [done|]. intros t Ht. specialize (Hinv t Ht). rewrite ?Hslo.
      destruct (entries s !! t) as [[v ttl]|]; [now destruct Hinv|]. now intros [].
  - rewrite notification_store by done.
    destruct (notified parseXML c) as [t0|] eqn:Hn.
    2: { now destruct (single_logout this). }
    specialize (Hscope t0 eq_refl).
    destruct (single_logout this) eqn:Hslo.
    + split; [reflexivity|]. intros t Ht. cbn [entries]. rewrite ?Hslo.
      pose proof (Hinv t Ht) as Hinvt. pose proof (Hinv t0 Hscope) as Hinv0.
      assert (Hrec : reconciled t0 (entries s) !! t
                     = if decide (t0 = t) then None else entries s !! t).
      { unfold reconciled. destruct (entries s !! t0) as [[v ttl]|] eqn:H0; cbn.
        - destruct Hinv0 as (_ & _ & _ & key & -> & Hkey). cbn.
          destruct (truthy key); rewrite lookup_delete; case_decide; try done.
          rewrite lookup_delete_ne; [done|]. intros <-. congruence.
        - rewrite lookup_delete. case_decide; done. }
      rewrite Hrec. case_decide as Heq.
      * subst t. intros [_ Hin]. set_solver.
      * destruct (entries s !! t) as [[v ttl]|].
        -- destruct Hinvt as (? & ? & ? & ?).
           split; [done|]. split; [set_solver|]. split; done.
        -- intros [_ Hin]. apply Hinvt. split; [done|set_solver].
    + split; [done|]. intros t Ht. specialize (Hinv t Ht). rewrite ?Hslo.
      destruct (entries s !! t) as [[v ttl]|]; [now destruct Hinv|]. now intros [].
  - split; [done|]. intros t Ht. specialize (Hinv t Ht). cbn [entries].
    rewrite lookup_insert_ne by congruence. exact Hinv.
  - split; [done|]. intros t Ht. specialize (Hinv t Ht). cbn [entries].
    rewrite lookup_delete. case_decide as Heq.
    + subst k. intros [_ Hin]. set_solver.
    + destruct (entries s !! t) as [[v ttl]|].
      * destruct Hinv as (? & ? & ? & ?).
        split; [done|]. split; [set_solver|]. split; done.
      * intros [Hon Hin]. apply Hinv. split; [done|set_solver].
Qed.

Lemma bindings_match_run (s0 : ref_store) (trace : list event) :
  faults s0 = [] →
  (∀ t, is_ticket t = true → entries s0 !! t = None) →
  Forall (well_scoped parseXML is_ticket) trace →
  bindings_match this is_ticket (run_ s0 trace) (live_ trace).
Proof.
  intros Hfaults Hclean. induction trace as [|e trace IH] using rev_ind; intros Hscope.
  - split; [done|]. intros t Ht. unfold run, live. cbn [foldl].
    rewrite (Hclean t Ht). intros [_ Hin]. set_solver.
  - apply Forall_app in Hscope as [Htrace He]. apply Forall_inv in He.
    unfold run, live. rewrite !foldl_app. cbn [foldl].
    apply bindings_match_step; [exact He|]. now apply IH.
Qed.

End Bindings.


(** ** Worked examples *)

Lemma handle_decision_witness :
  decision Sample.parseXML Sample.url_parse Sample.url_format
    (Sample.answers "v2-success") V3
    (Sample.cas V3 (JString "cas_info") false false) BOUNCE
    (Sample.start Sample.ticket_request (RefStore ∅ []))
    (_handle Sample.parseXML Sample.url_parse Sample.url_format
       (Sample.answers "v2-success") 0 "1970-01-01T00:00:00.000Z" V3
       (Sample.cas V3 (JString "cas_info") false false) BOUNCE
       (Sample.start Sample.ticket_request (RefStore ∅ []))).
Proof. apply handle_decision. left. discriminate. Defined.

(** C1 (as stated) fails on the success row. With no attributes slot
    configured, a successful validation leaves the attributes out of the
    session; and with single logout enabled and a store that refuses the
    binding, it writes no identity and sends no redirect. *)
Lemma success_row_counterexample :
  let run this s :=
    (_handle Sample.parseXML Sample.url_parse Sample.url_format
       (Sample.answers "v2-success") 0 "1970-01-01T00:00:00.000Z" V3
       this BOUNCE (Sample.start Sample.ticket_request s)).2 in
  _validate Sample.parseXML V3 "v2-success"
  = Ret (CbOk (JString "alice") Sample.alice_attributes)
  ∧ ¬ success_row_as_stated (Sample.cas V3 (JBool false) false false)
        (JString "alice") Sample.alice_attributes
        (Sample.start Sample.ticket_request (RefStore ∅ []))
        (run (Sample.cas V3 (JBool false) false false) (RefStore ∅ []))
  ∧ ¬ success_row_as_stated (Sample.cas V3 (JString "cas_info") false true)
        (JString "alice") Sample.alice_attributes
        (Sample.start Sample.ticket_request (RefStore ∅ [true]))
        (run (Sample.cas V3 (JString "cas_info") false true) (RefStore ∅ [true])).
Proof.
  intros run. split; [reflexivity|]. split.
  - intros (_ & [k Hk] & _).
    assert (Hs : slots (session (ctx (run (Sample.cas V3 (JBool false) false false)
                                        (RefStore ∅ []))))
                 = <["cas_user" := JString "alice"]>
                     {["cas_return_to" := JString "/home"]}).
    { vm_compute. reflexivity. }
    rewrite Hs in Hk. apply lookup_insert_Some in Hk as [[_ Hk] | [_ Hk]].
    + discriminate Hk.
    + apply lookup_singleton_Some in Hk as [_ Hk]. discriminate Hk.
  - intros (Hname & _). vm_compute in Hname. discriminate Hname.
Qed.

Lemma block_precedes_ticket_witness :
  ∃ w',
    _handle Sample.parseXML Sample.url_parse Sample.url_format
      (Sample.answers "v2-success") 0 "1970-01-01T00:00:00.000Z" V3
      (Sample.cas V3 (JBool false) false false) BLOCK
      (Sample.start Sample.ticket_request (RefStore ∅ [])) = (Ret tt, w')
    ∧ status (response (ctx w')) = Some 401
    ∧ http_log w' = [].
Proof.
  destruct (proj2 (block_precedes_ticket Sample.parseXML Sample.url_parse
                     Sample.url_format (Sample.answers "v2-success") 0
                     "1970-01-01T00:00:00.000Z" V3
                     (Sample.cas V3 (JBool false) false false)
                     (Sample.start Sample.ticket_request (RefStore ∅ []))))
    as (w' & Hrun & Hstatus & Hlog & _); [reflexivity | reflexivity |].
  exists w'. repeat split; assumption.
Defined.

(** C6. An instance configured for saml1.1 never gets to send its
    validation request: building the SOAP envelope reads [req], which no
    scope binds, and the ReferenceError leaves [_handleTicket] before the
    HTTP client is touched. *)
Theorem saml_ticket_validation_raises :
  _handle Sample.parseXML Sample.url_parse Sample.url_format
    (Sample.answers "saml-requester") 0 "1970-01-01T00:00:00.000Z" SAML1_1
    (Sample.cas SAML1_1 (JBool false) false false) BOUNCE
    (Sample.start Sample.ticket_request (RefStore ∅ []))
  = (Throw (ReferenceError "req"), Sample.start Sample.ticket_request (RefStore ∅ [])).
Proof. vm_compute. reflexivity. Qed.

Lemma dev_mode_writes_attributes_unconditionally_witness :
  ∃ this w',
    constructor Sample.url_parse (Some Sample.dev_options) = Ret this
    ∧ _handle Sample.parseXML Sample.url_parse Sample.url_format
        Sample.unreachable 0 "1970-01-01T00:00:00.000Z" V3 this BOUNCE
        (Sample.start (Sample.request "/home" [] ∅) (RefStore ∅ [])) = (Ret tt, w')
    ∧ slots (session (ctx w')) !! "false" = Some (JObject [("role", JString "tester")]).
Proof.
  destruct (constructor Sample.url_parse (Some Sample.dev_options)) as [this| |] eqn:Hc;
    try discriminate Hc.
  destruct (dev_mode_writes_attributes_unconditionally Sample.parseXML Sample.url_parse
              Sample.url_format Sample.unreachable 0 "1970-01-01T00:00:00.000Z" V3
              Sample.dev_options this BOUNCE JUndefined JUndefined
              (Sample.start (Sample.request "/home" [] ∅) (RefStore ∅ [])))
    as (Hdefault & Hdev & _).
  destruct (Hdefault Hc eq_refl) as [_ Hkey].
  injection Hc as <-.
  destruct (Hdev eq_refl eq_refl) as (w' & Hrun & Hslots).
  eexists. exists w'. split; [reflexivity|]. split; [exact Hrun|].
  rewrite Hslots, Hkey. apply lookup_insert_eq.
Defined.

Lemma single_logout_acknowledged_witness :
  acknowledged
    (handle_single_logout Sample.parseXML (Sample.cas V3 (JBool false) false true)
       (Sample.start (Sample.notification (JString "slo ST-1")) (RefStore ∅ [true]))).
Proof.
  apply single_logout_acknowledged. right. exists (JString "ST-1").
  exists (JString "slo ST-1"), (Sample.logout_doc "ST-1"). eexists.
  repeat split; reflexivity.
Defined.

(** C3 (as stated) fails when the payload does not parse: the callback
    throws before anything calls [resolve()], the awaited promise never
    settles, and the body is never written. *)
Lemma single_logout_unparsable_counterexample :
  let out :=
    handle_single_logout Sample.parseXML (Sample.cas V3 (JBool false) false true)
      (Sample.start (Sample.notification (JString "<<<")) (RefStore ∅ [])) in
  out.1 = Pending
  ∧ body (response (ctx out.2)) = None
  ∧ ¬ acknowledged out.
Proof.
  intros out. repeat split. intros [Hret _]. vm_compute in Hret. discriminate Hret.
Qed.

Lemma binding_destroy_failure_is_partial_success_witness :
  ∃ w',
    handle_single_logout Sample.parseXML (Sample.cas V3 (JBool false) false true)
      (Sample.start (Sample.notification (JString "slo ST-1"))
         (Sample.bound_store [false; false; true])) = (Ret tt, w')
    ∧ status (response (ctx w')) = Some 202
    ∧ body (response (ctx w')) = Some "ok"
    ∧ entries (store w') !! "sess-9" = None
    ∧ entries (store w') !! "ST-1" = Some (JObject [("key", JString "sess-9")], ONE_DAY).
Proof.
  destruct (binding_destroy_failure_is_partial_success Sample.parseXML
              (Sample.cas V3 (JBool false) false true)
              (Sample.start (Sample.notification (JString "slo ST-1"))
                 (Sample.bound_store [false; false; true]))
              (JString "ST-1") (JObject [("key", JString "sess-9")]) (JString "sess-9")
              (Sample.bound_store [false; true])
              (RefStore (delete "sess-9" (entries (Sample.bound_store []))) [true])
              (RefStore (delete "sess-9" (entries (Sample.bound_store []))) [])
              (Fault "store.destroy"))
    as (w' & Hrun & Hstatus & Hbody & Hstore).
  - reflexivity.
  - exists (JString "slo ST-1"), (Sample.logout_doc "ST-1"). eexists.
    repeat split; reflexivity.
  - vm_compute. reflexivity.
  - reflexivity.
  - reflexivity.
  - reflexivity.
  - vm_compute. reflexivity.
  - vm_compute. reflexivity.
  - exists w'. rewrite Hstore. repeat split; try assumption; vm_compute; reflexivity.
Defined.



(** * Further properties *)

(** ** The version 1.0 parser *)

(** X1. The version 1.0 parser reports success exactly for a body whose
    first line is "yes" and which has a second line; the identity is that
    second line, whatever follows it, and no attributes are passed. *)
Theorem validate_v1_success_iff (body : string) (user attributes : jsval) :
  validate_v1 body = Ret (CbOk user attributes)
  ↔ ∃ rest,
      body = "yes" +:+ String newline rest
      ∧ user = JString (List.hd "" (split_on newline rest))
      ∧ attributes = JUndefined.
Proof.
  unfold validate_v1. split.
  - destruct (split_on_first newline body) as (first & others & Hsplit & Hfree & Hshape).
    rewrite Hsplit. unfold index_str at 1 3. cbn [lookup list_lookup strict_eq_str].
    destruct (String.eqb first "yes") eqn:Hyes.
    + apply String.eqb_eq in Hyes as ->.
      destruct Hshape as [[-> ->] | (rest & -> & ->)].
      * cbn. intros [=].
      * destruct (split_on_first newline rest) as (second & more & Hrest & _).
        rewrite Hrest. cbn. intros [= <- <-]. exists rest. rewrite Hrest. now repeat split.
    + cbn [andb]. destruct (String.eqb first "no"); intros [=].
  - intros (rest & -> & -> & ->).
    rewrite (split_on_cons newline "yes" rest free_of_yes).
    destruct (split_on_first newline rest) as (second & more & Hrest & _).
    rewrite Hrest. reflexivity.
Qed.

(** X2. The version 1.0 parser reports "CAS authentication failed."
    exactly when the first line of the body is "no"; every other body that
    is not a success gets "Response from CAS server was bad.". *)
Theorem validate_v1_failure_iff (body : string) :
  (validate_v1 body = Ret (CbErr "CAS authentication failed.")
   ↔ body = "no" ∨ ∃ rest, body = "no" +:+ String newline rest)
  ∧ ((∀ rest, body ≠ "yes" +:+ String newline rest) →
     body ≠ "no" → (∀ rest, body ≠ "no" +:+ String newline rest) →
     validate_v1 body = Ret (CbErr "Response from CAS server was bad.")).
Proof.
  unfold validate_v1.
  destruct (split_on_first newline body) as (first & others & Hsplit & Hfree & Hshape).
  rewrite Hsplit. unfold index_str. cbn [lookup list_lookup strict_eq_str].
  split; [split|].
  - destruct (String.eqb first "yes") eqn:Hyes.
    { apply String.eqb_eq in Hyes as ->.
      destruct others; cbn; intros [=]. }
    cbn [andb]. destruct (String.eqb first "no") eqn:Hno; [|intros [=]].
    apply String.eqb_eq in Hno as ->. intros _.
    destruct Hshape as [[_ ->] | (rest & -> & _)]; [now left | right; now exists rest].
  - intros Hbody.
    assert (Hfirst : first = "no").
    { destruct Hbody as [-> | (rest & ->)].
      - cbn in Hsplit. now injection Hsplit as <- _.
      - rewrite (split_on_cons newline "no" rest eq_refl) in Hsplit.
        now injection Hsplit as <- _. }
    subst first. reflexivity.
  - intros Hyes Hno Hnol.
    destruct (String.eqb first "yes") eqn:Ey.
    { apply String.eqb_eq in Ey as ->.
      destruct Hshape as [[-> ->] | (rest & -> & _)]; [reflexivity|].
      now destruct (Hyes rest). }
    cbn [andb]. destruct (String.eqb first "no") eqn:En; [|reflexivity].
    apply String.eqb_eq in En as ->.
    destruct Hshape as [[_ ->] | (rest & -> & _)]; [now destruct Hno|].
    now destruct (Hnol rest).
Qed.

(** ** The SAML parser *)

Lemma saml_attribute_read (attr : jsval) (acc : list (string * jsval)) :
  saml_attribute attr acc
  = (v ← attribute_value attr; k ← attribute_name attr; Ret (set_field k v acc)).
Proof.
  unfold saml_attribute, attribute_value, attribute_name.
  destruct (get_prop attr "attributevalue") as [av| |]; [|reflexivity..].
  cbn [mbind completion_bind].
  destruct (match av with
            | JArray vs => xs ← collect_values vs; Ret (JArray xs)
            | _ => get_prop av "_"
            end) as [v| |]; [|reflexivity..].
  cbn [mbind completion_bind].
  destruct (get_prop attr "$") as [d| |]; [|reflexivity..].
  cbn [mbind completion_bind].
  destruct (get_prop d "AttributeName"); reflexivity.
Qed.

Lemma assoc_set_field (k k' : string) (v : jsval) (fs : list (string * jsval)) :
  assoc k' (set_field k v fs)
  = if String.eqb k "__proto__" then assoc k' fs
    else if String.eqb k k' then Some v else assoc k' fs.
Proof.
  unfold set_field. destruct (String.eqb k "__proto__"); [reflexivity|].
  induction fs as [|[k0 v0] r IH]; simpl.
  - rewrite (String.eqb_sym k' k). now destruct (String.eqb k k').
  - destruct (String.eqb k k0) eqn:E0; simpl.
    + apply String.eqb_eq in E0 as <-. rewrite (String.eqb_sym k' k).
      now destruct (String.eqb k k').
    + rewrite IH. destruct (String.eqb k' k0) eqn:E1; [|reflexivity].
      apply String.eqb_eq in E1 as ->. now rewrite E0.
Qed.

(** X3. A SAML response whose status is "Success" but whose assertion has
    no attribute statement, or an attribute statement without an attribute
    element, is answered with the generic failure: the identity is not
    delivered. *)
Theorem saml_success_without_attributes_fails (result samlResponse : jsval) :
  saml_response result = Ret samlResponse →
  saml_status samlResponse = Ret (JString "Success") →
  (∃ e, saml_attribute_elements samlResponse = Throw e)
  ∨ saml_attribute_elements samlResponse = Ret JUndefined
  ∨ saml_attribute_elements samlResponse = Ret JNull →
  validate_saml_parsed (Parsed result) = Ret (CbErr "CAS authentication failed.").
Proof.
  intros Hr Hs Hnone. cbn [validate_saml_parsed].
  rewrite (validate_saml_try_success result samlResponse Hr Hs).
  destruct Hnone as [[e ->] | [-> | ->]]; reflexivity.
Qed.

Lemma saml_success_without_attributes_fails_witness :
  validate_saml_parsed (Parsed (Fixture.saml_success Fixture.bare_assertion))
  = Ret (CbErr "CAS authentication failed.").
Proof.
  eapply saml_success_without_attributes_fails; [reflexivity | reflexivity |].
  left. exists TypeError. reflexivity.
Defined.

(** X4. The attribute map built from the attribute elements holds, under
    each name other than "__proto__", the value of the last element that
    carries the name; names no element carries keep what the map held
    before. An element named "__proto__" adds no entry to the map. *)
Theorem saml_attributes_last_wins (attrs : list jsval)
    (acc out : list (string * jsval)) (k : string) :
  saml_attributes attrs acc = Ret out →
  assoc k out = if String.eqb k "__proto__" then assoc k acc
                else match last_named k attrs with
                     | Some v => Some v
                     | None => assoc k acc
                     end.
Proof.
  revert acc. induction attrs as [|attr rest IH]; intros acc Hrun.
  - cbn in Hrun. injection Hrun as <-. now destruct (String.eqb k "__proto__").
  - cbn [saml_attributes] in Hrun. rewrite saml_attribute_read in Hrun.
    cbn [last_named].
    destruct (attribute_value attr) as [v| |]; try discriminate Hrun.
    destruct (attribute_name attr) as [k'| |]; try discriminate Hrun.
    cbn [mbind completion_bind] in Hrun. rewrite (IH _ Hrun).
    rewrite assoc_set_field.
    destruct (String.eqb k "__proto__") eqn:Ek.
    + apply String.eqb_eq in Ek as ->.
      now destruct (String.eqb k' "__proto__").
    + destruct (last_named k rest); [reflexivity|].
      destruct (String.eqb k' "__proto__") eqn:Ek'.
      * apply String.eqb_eq in Ek' as ->.
        now rewrite (String.eqb_sym "__proto__" k), Ek.
      * now destruct (String.eqb k' k).
Qed.

Lemma saml_attributes_last_wins_witness :
  ∃ out,
    saml_attributes [Fixture.attribute "role" "student"; Fixture.attribute "__proto__" "x";
                     Fixture.attribute "role" "staff"] [] = Ret out
    ∧ assoc "role" out = Some (JString "staff")
    ∧ assoc "__proto__" out = None.
Proof.
  eexists. split; [reflexivity|]. split.
  - rewrite (saml_attributes_last_wins
               [Fixture.attribute "role" "student"; Fixture.attribute "__proto__" "x";
                Fixture.attribute "role" "staff"] [] _ "role" eq_refl).
    reflexivity.
  - rewrite (saml_attributes_last_wins
               [Fixture.attribute "role" "student"; Fixture.attribute "__proto__" "x";
                Fixture.attribute "role" "staff"] [] _ "__proto__" eq_refl).
    reflexivity.
Defined.

(** ** The constructor *)

(** X5. The constructor checks its options in a fixed order, each check
    with its own error: the options object is missing; then [cas_url] is
    missing; then [service_url] is missing; then [cas_version] is given and
    is not one of '1.0', '2.0', '3.0', 'saml1.1'. So an instance is only
    ever built from options that pass the four checks, and it then carries
    the two URLs as given, and version 3.0 when none was given. (Whether
    every such options object gives an instance is not stated: [url.parse]
    is taken here to accept [cas_url].) *)
Theorem constructor_checks_options (url_parse : string → parsed_url)
    (options : option CAS_options) :
  (options = None →
   constructor url_parse options
   = Throw (Error "CAS Authentication was not given a valid configuration object."))
  ∧ (∀ o, options = Some o →
       o_cas_url o = None →
       constructor url_parse options
       = Throw (Error "CAS Authentication requires a cas_url parameter."))
  ∧ (∀ o cas, options = Some o →
       o_cas_url o = Some cas →
       o_service_url o = None →
       constructor url_parse options
       = Throw (Error "CAS Authentication requires a service_url parameter."))
  ∧ (∀ o cas service, options = Some o →
       o_cas_url o = Some cas →
       o_service_url o = Some service →
       (∀ s, o_cas_version o = JString s →
             version_of_string s = None →
             constructor url_parse options
             = Throw (Error ("The supplied CAS version (" +:+ dquote +:+ s +:+ dquote
                             +:+ ") is not supported.")))
       ∧ (o_cas_version o ≠ JUndefined →
          (∀ s, o_cas_version o ≠ JString s) →
          ∃ msg, constructor url_parse options = Throw (Error msg)))
  ∧ (∀ this, constructor url_parse options = Ret this →
       ∃ o cas service v,
         options = Some o
         ∧ o_cas_url o = Some cas ∧ o_service_url o = Some service
         ∧ (o_cas_version o = JUndefined ∧ v = V3
            ∨ ∃ s, o_cas_version o = JString s ∧ version_of_string s = Some v)
         ∧ cas_url this = cas ∧ service_url this = service ∧ cas_version this = v).
Proof.
  split_and!.
  - intros ->. reflexivity.
  - intros o -> Hcas. unfold constructor. now rewrite Hcas.
  - intros o cas -> Hcas Hservice. unfold constructor. now rewrite Hcas, Hservice.
  - intros o cas service -> Hcas Hservice. unfold constructor.
    rewrite Hcas, Hservice. split.
    + intros s -> Hs. cbn [or_default]. now rewrite Hs.
    + intros Hu Hs. destruct (o_cas_version o) as [| | | |s| |]; cbn [or_default];
        try (eexists; reflexivity); [now destruct Hu | now destruct (Hs s)].
  - intros this. unfold constructor. destruct options as [o|]; [|discriminate].
    destruct (o_cas_url o) as [cas|] eqn:Hcas; [|discriminate].
    destruct (o_service_url o) as [service|] eqn:Hservice; [|discriminate].
    destruct (o_cas_version o) as [| | | |s| |] eqn:Hv; cbn [or_default];
      try discriminate.
    + intros [= <-]. exists o, cas, service, V3. repeat split; auto.
    + destruct (version_of_string s) as [v|] eqn:Hs; [|discriminate].
      intros [= <-]. exists o, cas, service, v. repeat split; eauto.
Qed.

Lemma constructor_checks_options_witness :
  constructor Sample.url_parse (Some (Fixture.options_for (JString "4.0")))
  = Throw (Error ("The supplied CAS version (" +:+ dquote +:+ "4.0" +:+ dquote
                  +:+ ") is not supported."))
  ∧ constructor Sample.url_parse None
    = Throw (Error "CAS Authentication was not given a valid configuration object.").
Proof.
  split.
  - refine (proj1 (proj1 (proj2 (proj2 (proj2
              (constructor_checks_options Sample.url_parse
                 (Some (Fixture.options_for (JString "4.0")))))))
              (Fixture.options_for (JString "4.0")) _ _ eq_refl eq_refl eq_refl)
              "4.0" eq_refl eq_refl).
  - exact (proj1 (constructor_checks_options Sample.url_parse None) eq_refl).
Defined.

(** X6. An instance built for version '1.0' has no attributes slot,
    whatever [session_info] the options name: a successful validation
    writes the identity slot and nothing else. *)
Theorem constructor_v1_has_no_attributes_slot {St : Type} {store_ops : SessionStore St}
    (url_parse : string → parsed_url) (o : CAS_options) (this : Cas)
    (user attributes : jsval) (w : world St) :
  constructor url_parse (Some o) = Ret this →
  o_cas_version o = JString "1.0" →
  session_info this = JBool false
  ∧ (single_logout this = false →
     slots (session (ctx (Eff.after (on_validated this (CbOk user attributes)) w)))
     = <[to_string (session_name this) := user]> (slots (session (ctx w)))).
Proof.
  intros Hc Hv.
  assert (Hinfo : session_info this = JBool false).
  { unfold constructor in Hc. rewrite Hv in Hc.
    destruct (o_cas_url o), (o_service_url o); try discriminate Hc.
    cbn in Hc. now injection Hc as <-. }
  split; [exact Hinfo|]. intros Hslo.
  destruct (on_validated_slots this user attributes w) as [Hplain _].
  rewrite (Hplain Hslo), Hinfo. reflexivity.
Qed.

Lemma constructor_v1_has_no_attributes_slot_witness :
  ∃ this,
    constructor Sample.url_parse (Some (Fixture.options_for (JString "1.0"))) = Ret this
    ∧ o_session_info (Fixture.options_for (JString "1.0")) = JString "cas_info"
    ∧ session_info this = JBool false.
Proof.
  eexists. split; [reflexivity|]. split; [reflexivity|].
  apply (constructor_v1_has_no_attributes_slot (St := ref_store) Sample.url_parse
           (Fixture.options_for (JString "1.0")) _ JUndefined JUndefined
           (Sample.start Sample.ticket_request (RefStore ∅ []))); reflexivity.
Defined.

(** ** The middlewares, whatever the request *)

Section Middleware.
Context {St : Type} {store_ops : SessionStore St}.
Variable parseXML : jsval -> parse_result.
Variable url_parse : string -> parsed_url.
Variable url_format : string -> list (string * jsval) -> string.
Variable http_respond : list http_event -> settled string.
Variable now_ms : Z.
Variable now_iso : string.
Variable adapter : version.

Abbreviation handle_any :=
  (_handle parseXML url_parse url_format http_respond now_ms now_iso adapter).
Abbreviation handleTicket_any :=
  (_handleTicket parseXML url_parse url_format http_respond now_ms now_iso adapter).

(** The parts of the world that [on_validated] leaves alone. *)
Lemma on_validated_frame (this : Cas) (args : cb_args) (w : world St) :
  let w' := after (on_validated this args) w in
  http_log w' = http_log w
  ∧ next_calls w' = next_calls w
  ∧ body (response (ctx w')) = body (response (ctx w))
  ∧ (status (response (ctx w')) = status (response (ctx w))
     ∨ status (response (ctx w')) = Some 401)
  ∧ (url (ctx w'), query (ctx w'), request_body (ctx w'), externalKey (session (ctx w')))
    = (url (ctx w), query (ctx w), request_body (ctx w), externalKey (session (ctx w))).
Proof.
  destruct args as [msg|user attributes]; cbn zeta.
  { unfold after. rewrite on_validated_err. cbn. auto 10. }
  unfold after at 1 2 3 4 5 6 7 8 9.
  destruct (single_logout this) eqn:Hslo.
  - destruct ((register_binding (ctx w) (store w)).1) as [[]|e] eqn:Hreg.
    + rewrite on_validated_bound by done. cbn [snd]. unfold commit_identity. run_M.
      destruct (truthy (session_info this)); cbn; auto 10.
    + rewrite (on_validated_unbound _ _ _ _ e) by done. cbn. auto 10.
  - rewrite on_validated_plain by done. cbn [snd]. unfold commit_identity. run_M.
    destruct (truthy (session_info this)); cbn; auto 10.
Qed.

(** What [_handleTicket] does to the world for versions 1.0 to 3.0. *)
Lemma handleTicket_effects (this : Cas) (w : world St) :
  cas_version this ≠ SAML1_1 →
  ∃ w',
    handleTicket_any this w = (Ret tt, w')
    ∧ http_log w'
      = (http_log w
         ++ [Opened (get_request url_parse url_format adapter this (ctx w)); Ended])%list
    ∧ next_calls w' = next_calls w
    ∧ body (response (ctx w')) = body (response (ctx w))
    ∧ (status (response (ctx w')) = status (response (ctx w))
       ∨ status (response (ctx w')) = Some 401)
    ∧ (url (ctx w'), query (ctx w'), request_body (ctx w'), externalKey (session (ctx w')))
      = (url (ctx w), query (ctx w), request_body (ctx w), externalKey (session (ctx w)))
    ∧ (single_logout this = false → store w' = store w).
Proof.
  intros Hv. rewrite handleTicket_run by done. cbv zeta.
  assert (Hlog : http_log (round_trip url_parse url_format adapter this w)
                 = (http_log w
                    ++ Opened (get_request url_parse url_format adapter this (ctx w))
                       :: [Ended])%list).
  { unfold round_trip. run_M. now rewrite <- app_assoc. }
  destruct (http_respond _) as [body|e].
  2: { eexists. split; [reflexivity|]. rewrite <- Hlog. cbn. auto 10. }
  destruct (validate_returns parseXML adapter body) as (args & ->).
  eexists. split; [reflexivity|].
  destruct (on_validated_frame this args (round_trip url_parse url_format adapter this w))
    as (Hl & Hn & Hb & Hs & Hrest).
  rewrite Hl, Hn, Hb, Hlog, Hrest. repeat split; [exact Hs|].
  intros Hslo. destruct args as [msg|user attributes]; [reflexivity|].
  unfold after at 1. rewrite on_validated_plain by done. cbn [snd].
  unfold commit_identity. run_M. destruct (truthy (session_info this)); reflexivity.
Qed.

(** X7. For an instance of version 1.0, 2.0 or 3.0, validating a ticket
    opens exactly one request towards the CAS server and ends it, whatever
    comes back: nothing is retried. The handler returns normally, never
    passes the request on, never writes the body, and sets no status other
    than 401. *)
Theorem handleTicket_one_round_trip (this : Cas) (w : world St) :
  cas_version this ≠ SAML1_1 →
  ∃ w',
    handleTicket_any this w = (Ret tt, w')
    ∧ http_log w'
      = (http_log w
         ++ [Opened (get_request url_parse url_format adapter this (ctx w)); Ended])%list
    ∧ next_calls w' = next_calls w
    ∧ body (response (ctx w')) = body (response (ctx w))
    ∧ (status (response (ctx w')) = status (response (ctx w))
       ∨ status (response (ctx w')) = Some 401).
Proof.
  intros Hv.
  destruct (handleTicket_effects this w Hv) as (w' & Hrun & Hlog & Hn & Hb & Hs & _).
  exists w'. auto.
Qed.

(** X8. Whatever the instance and the request, [_handle] never writes the
    response body, sets no status other than 401, opens at most the one
    validation request, and leaves the request itself alone; and a request
    it passes on has been given neither a status nor a redirect, with no
    request made to the CAS server. *)
Theorem handle_effects_are_bounded (this : Cas) (authType : AUTH_TYPE) (w : world St) :
  let w' := (handle_any this authType w).2 in
  body (response (ctx w')) = body (response (ctx w))
  ∧ (status (response (ctx w')) = status (response (ctx w))
     ∨ status (response (ctx w')) = Some 401)
  ∧ (http_log w' = http_log w
     ∨ http_log w'
       = (http_log w
          ++ [Opened (get_request url_parse url_format adapter this (ctx w)); Ended])%list)
  ∧ (url (ctx w'), query (ctx w'), request_body (ctx w'), externalKey (session (ctx w')))
    = (url (ctx w), query (ctx w), request_body (ctx w), externalKey (session (ctx w)))
  ∧ (next_calls w' = next_calls w
     ∨ next_calls w' = S (next_calls w)
       ∧ response (ctx w') = response (ctx w)
       ∧ http_log w' = http_log w
       ∧ store w' = store w).
Proof.
  unfold _handle, _login. run_M.
  destruct (truthy (default JUndefined (slots (session (ctx w)) !! _))).
  { destruct authType; cbn; auto 10. }
  destruct (is_dev_mode this); [cbn; auto 10|].
  destruct authType; try (cbn; auto 10; fail).
  all: destruct (truthy (default JUndefined (assoc "ticket" (query (ctx w)))));
    [|cbn; auto 10].
  all: destruct (cas_version this) eqn:Hv;
    try (rewrite saml_handleTicket_raises by done; cbn; auto 10; fail).
  all: destruct (handleTicket_effects this w) as (w' & -> & Hlog & Hn & Hb & Hs & Hreq & _);
    [congruence|]; cbn [snd]; rewrite Hlog, Hn, Hb, Hreq; auto 10.
Qed.

(** X9. For a request that carries no identity the middlewares [bounce]
    and [bounce_redirect] do the same thing; for a request that carries one,
    [bounce] and [block] do. *)
Theorem bounce_variants_agree (this : Cas) (w : world St) :
  (truthy (identity_slot this (ctx w)) = false →
   bounce_redirect parseXML url_parse url_format http_respond now_ms now_iso adapter this w
   = bounce parseXML url_parse url_format http_respond now_ms now_iso adapter this w)
  ∧ (truthy (identity_slot this (ctx w)) = true →
     block parseXML url_parse url_format http_respond now_ms now_iso adapter this w
     = bounce parseXML url_parse url_format http_respond now_ms now_iso adapter this w).
Proof.
  unfold bounce, bounce_redirect, block, _handle. rewrite !run_bind.
  unfold session_get, read. fold (identity_slot this (ctx w)).
  split; intros ->; reflexivity.
Qed.


(** X11. With [dev_mode_user] left out of the options, the dev identity is
    the empty string, which does not count as an identity. A request that
    carries no identity takes the dev short-circuit and is passed on; when
    the attributes slot and the identity slot have different names, the
    session is still unauthenticated afterwards (the identity slot holds
    the empty string), so its next request takes the short-circuit again.
    When the two slots have the same name, the identity slot ends up
    holding the dev attributes. *)
Theorem dev_mode_default_user_never_authenticates (o : CAS_options) (this : Cas)
    (authType : AUTH_TYPE) (w : world St) :
  constructor url_parse (Some o) = Ret this →
  o_dev_mode_user o = JUndefined →
  is_dev_mode this = true →
  truthy (identity_slot this (ctx w)) = false →
  ∃ w',
    handle_any this authType w = (Ret tt, w')
    ∧ next_calls w' = S (next_calls w)
    ∧ (to_string (session_info this) ≠ to_string (session_name this) →
       identity_slot this (ctx w') = JString ""
       ∧ truthy (identity_slot this (ctx w')) = false)
    ∧ (to_string (session_info this) = to_string (session_name this) →
       identity_slot this (ctx w') = dev_mode_info this).
Proof.
  intros Hc Huser Hdev Hid.
  assert (Hempty : dev_mode_user this = JString "").
  { unfold constructor in Hc.
    destruct (o_cas_url o), (o_service_url o); try discriminate Hc.
    destruct (match or_default (o_cas_version o) (JString "3.0") with
              | JString s => version_of_string s
              | _ => None
              end); [|discriminate Hc].
    injection Hc as <-. cbn. now rewrite Huser. }
  unfold _handle. run_M. fold (identity_slot this (ctx w)). rewrite Hid, Hdev.
  eexists. split; [reflexivity|]. unfold identity_slot. proj_M.
  split; [reflexivity|]. split.
  - intros Hkeys. rewrite lookup_insert_ne by done.
    rewrite lookup_insert_eq, Hempty. now split.
  - intros ->. now rewrite lookup_insert_eq.
Qed.

(** X12. With single logout disabled neither the decision engine nor the
    logout notification handler reads or writes the session store. *)
Theorem single_logout_disabled_never_touches_store (this : Cas)
    (authType : AUTH_TYPE) (w : world St) :
  single_logout this = false →
  store (handle_any this authType w).2 = store w
  ∧ handle_single_logout parseXML this w = (Ret tt, after (set_body "ok") w)
  ∧ store (handle_single_logout parseXML this w).2 = store w.
Proof.
  intros Hslo. split; [|unfold handle_single_logout; rewrite Hslo; now split].
  unfold _handle, _login. run_M.
  destruct (truthy (default JUndefined (slots (session (ctx w)) !! _))).
  { now destruct authType. }
  destruct (is_dev_mode this); [reflexivity|].
  destruct authType; try reflexivity.
  all: destruct (truthy (default JUndefined (assoc "ticket" (query (ctx w)))));
    [|reflexivity].
  all: destruct (cas_version this) eqn:Hv;
    try (rewrite saml_handleTicket_raises by done; reflexivity).
  all: destruct (handleTicket_effects this w) as (w' & -> & _ & _ & _ & _ & _ & Hstore);
    [congruence|]; exact (Hstore Hslo).
Qed.

(** X13. The round trip through the CAS login, for an instance of version
    1.0, 2.0 or 3.0 with single logout off, whose identity slot and
    attributes slot (when one is configured) are named neither
    "cas_return_to" nor alike: a request without identity and ticket,
    through [bounce] or [bounce_redirect] with dev mode off, is sent to the
    login with its return URL saved; when the same session comes back
    through either middleware with a ticket that validates, the identity
    is written and the response redirects to that saved URL, the
    [returnTo] of the first request if it gave one and its path
    otherwise. *)
Theorem login_round_trip (this : Cas) (authType authType' : AUTH_TYPE)
    (w back : world St) (body : string) (user attributes : jsval) :
  unauthenticated this authType w →
  truthy (query_ticket (ctx w)) = false →
  session (ctx back) = session (ctx (handle_any this authType w).2) →
  authType' ≠ BLOCK →
  truthy (query_ticket (ctx back)) = true →
  cas_version this ≠ SAML1_1 →
  http_respond (http_log (round_trip url_parse url_format adapter this back))
  = Fulfilled body →
  _validate parseXML adapter body = Ret (CbOk user attributes) →
  single_logout this = false →
  to_string (session_name this) ≠ "cas_return_to" →
  (truthy (session_info this) = true →
   to_string (session_info this) ≠ "cas_return_to"
   ∧ to_string (session_info this) ≠ to_string (session_name this)) →
  ∃ w',
    handle_any this authType' back = (Ret tt, w')
    ∧ identity_slot this (ctx w') = user
    ∧ redirect_to (response (ctx w'))
      = Some (js_or (default JUndefined (assoc "returnTo" (query (ctx w))))
                (JString (path (url_parse (url (ctx w)))))).
Proof.
  intros (Hid & Hdev & Hnb) Hnoticket Hsession Hnb' Hticket Hv Hresp Hvalid Hslo
    Hname Hinfo.
  assert (Hsaved : slots (session (ctx back))
                   = <["cas_return_to" :=
                         js_or (default JUndefined (assoc "returnTo" (query (ctx w))))
                           (JString (path (url_parse (url (ctx w)))))]>
                       (slots (session (ctx w)))).
  { rewrite Hsession. unfold _handle, _login, identity_slot, query_ticket in *. run_M.
    rewrite Hid, Hdev. destruct authType; [| |now destruct Hnb];
      now rewrite Hnoticket. }
  assert (Hid' : truthy (identity_slot this (ctx back)) = false).
  { unfold identity_slot in *. rewrite Hsaved, lookup_insert_ne by done. exact Hid. }
  assert (Hhandle : handle_any this authType' back = handleTicket_any this back).
  { unfold _handle, query_ticket in *. run_M. fold (identity_slot this (ctx back)).
    rewrite Hid', Hdev. destruct authType'; [| |now destruct Hnb'];
      now rewrite Hticket. }
  rewrite Hhandle.
  assert (Hrun : handleTicket_any this back
                 = (Ret tt, after (commit_identity this user attributes)
                              (round_trip url_parse url_format adapter this back))).
  { rewrite handleTicket_run by done. cbv zeta. rewrite Hresp, Hvalid.
    unfold after at 1. now rewrite on_validated_plain. }
  exists (after (commit_identity this user attributes)
            (round_trip url_parse url_format adapter this back)).
  split; [exact Hrun|].
  unfold commit_identity, identity_slot, round_trip. run_M. rewrite Hsaved.
  destruct (truthy (session_info this)) eqn:Hti; proj_M.
  - destruct (Hinfo eq_refl) as [Hi1 Hi2].
    rewrite !(lookup_insert_ne _ (to_string (session_info this))) by done.
    rewrite lookup_insert_eq. split; [reflexivity|].
    rewrite lookup_insert_ne by done. now rewrite lookup_insert_eq.
  - rewrite lookup_insert_eq. split; [reflexivity|].
    rewrite lookup_insert_ne by done. now rewrite lookup_insert_eq.
Qed.

(** X23. [_request] opens one request and never writes a body to it. For
    versions 1.0 to 3.0 it ends the request and its promise settles as the
    server answers. For saml1.1 the executor raises a ReferenceError on
    [post_data], a variable of another function, which rejects the promise:
    the request is opened but neither written nor ended. The context and
    the store are left alone. *)
Theorem request_never_writes (this : Cas) (ro : request_options) (w : world St) :
  let out := _request http_respond this ro w in
  ctx out.2 = ctx w
  ∧ store out.2 = store w
  ∧ (cas_version this = SAML1_1 →
     out.1 = Throw (ReferenceError "post_data")
     ∧ http_log out.2 = (http_log w ++ [Opened ro])%list)
  ∧ (cas_version this ≠ SAML1_1 →
     http_log out.2 = (http_log w ++ [Opened ro; Ended])%list
     ∧ out.1 = await (http_respond (http_log out.2))).
Proof.
  cbv zeta. unfold _request.
  destruct (cas_version this); run_M; split_and!; try reflexivity;
    try (intros; congruence); intros _; rewrite <- ?app_assoc; now split.
Qed.

(** X24. An instance configured for saml1.1 rejects every request that
    reaches ticket validation: the handler throws the ReferenceError on
    [req] and leaves the session, the response, the store and the HTTP log
    exactly as they were. *)
Theorem saml_ticket_requests_always_reject (this : Cas) (authType : AUTH_TYPE)
    (w : world St) :
  cas_version this = SAML1_1 →
  unauthenticated this authType w →
  truthy (query_ticket (ctx w)) = true →
  handle_any this authType w = (Throw (ReferenceError "req"), w).
Proof.
  intros Hv (Hid & Hdev & Hnb) Hticket.
  unfold _handle, query_ticket in *. run_M. fold (identity_slot this (ctx w)).
  rewrite Hid, Hdev.
  destruct authType; [| |now destruct Hnb]; rewrite Hticket;
    now apply saml_handleTicket_raises.
Qed.
End Middleware.

(** ** The logout middleware *)

Section LogoutProperties.
Context {St : Type} {store_ops : SessionStore St}.
Variable session_destroy : Session -> St -> completion Session * St.
Variable parseXML : jsval -> parse_result.
Variable url_parse : string -> parsed_url.
Variable url_format : string -> list (string * jsval) -> string.
Variable http_respond : list http_event -> settled string.
Variable now_ms : Z.
Variable now_iso : string.
Variable adapter : version.

Abbreviation handle_after :=
  (_handle parseXML url_parse url_format http_respond now_ms now_iso adapter).

(** The address [logout] redirects to. *)
Lemma logout_run (this : Cas) (w : world St) :
  destroy_session this = false →
  logout session_destroy this w
  = (Ret tt,
     after (redirect (JString (cas_url this +:+ "/logout?" +:+
                               (if truthy (logout_redirect_url this)
                                then "service=" +:+ to_string (logout_redirect_url this)
                                else ""))))
       (after (if truthy (session_info this)
               then session_delete (to_string (session_info this))
               else mret tt)
          (after (session_delete (to_string (session_name this))) w))).
Proof.
  intros Hd. unfold logout, session_delete. rewrite Hd. run_M.
  destruct (truthy (session_info this)); reflexivity.
Qed.

(** X14. When [logout_redirect_url] is falsy or a string, [logout]
    redirects to the logout address of the CAS server, followed by
    [service=] and that string when it is not empty and by nothing
    otherwise. Without whole-session destruction it does so on every
    request, and sets no status, writes no body, does not pass the request
    on, and touches neither the store nor the network: a single-logout
    binding outlives it. With whole-session destruction the session and
    the store are what [session.destroy] leaves; if that call throws, the
    exception leaves the middleware and nothing is redirected. *)
Theorem logout_redirects_to_cas (this : Cas) (w : world St) (service : string) :
  truthy (logout_redirect_url this) = false
  ∨ logout_redirect_url this = JString service →
  let target :=
    JString (cas_url this +:+ "/logout?" +:+
             (if truthy (logout_redirect_url this)
              then "service=" +:+ service
              else "")) in
  (destroy_session this = false →
   ∃ w',
     logout session_destroy this w = (Ret tt, w')
     ∧ redirect_to (response (ctx w')) = Some target
     ∧ store w' = store w
     ∧ http_log w' = http_log w
     ∧ next_calls w' = next_calls w
     ∧ status (response (ctx w')) = status (response (ctx w))
     ∧ body (response (ctx w')) = body (response (ctx w)))
  ∧ (destroy_session this = true →
     ∀ left_behind st,
       session_destroy (session (ctx w)) (store w) = (Ret left_behind, st) →
       ∃ w',
         logout session_destroy this w = (Ret tt, w')
         ∧ redirect_to (response (ctx w')) = Some target
         ∧ session (ctx w') = left_behind
         ∧ store w' = st
         ∧ next_calls w' = next_calls w)
  ∧ (destroy_session this = true →
     ∀ e st,
       session_destroy (session (ctx w)) (store w) = (Throw e, st) →
       ∃ w',
         logout session_destroy this w = (Throw e, w')
         ∧ response (ctx w') = response (ctx w)
         ∧ session (ctx w') = session (ctx w)
         ∧ store w' = st
         ∧ next_calls w' = next_calls w).
Proof.
  intros Hurl. cbv zeta.
  assert (Hq : (if truthy (logout_redirect_url this)
                then "service=" +:+ to_string (logout_redirect_url this)
                else "")
               = (if truthy (logout_redirect_url this)
                  then "service=" +:+ service
                  else "")).
  { destruct Hurl as [-> | ->]; [reflexivity|]. reflexivity. }
  split_and!.
  - intros Hd. rewrite logout_run by done. rewrite Hq. eexists.
    split; [reflexivity|]. unfold session_delete. run_M.
    destruct (truthy (session_info this)); now split_and!.
  - intros Hd left_behind st Hs. unfold logout, call_session_destroy.
    rewrite Hd, Hq, run_bind, Hs. eexists. split; [reflexivity|]. now split_and!.
  - intros Hd e st Hs. unfold logout, call_session_destroy.
    rewrite Hd, run_bind, Hs. eexists. split; [reflexivity|]. now split_and!.
Qed.

(** X15. Without whole-session destruction, [logout] removes the identity
    slot, so the session no longer counts as authenticated: with dev mode
    off, the next request through [block] is answered 401 and not passed
    on. *)
Theorem logout_then_block (this : Cas) (w : world St) :
  destroy_session this = false →
  is_dev_mode this = false →
  let w1 := (logout session_destroy this w).2 in
  identity_slot this (ctx w1) = JUndefined
  ∧ ∃ w2,
      handle_after this BLOCK w1 = (Ret tt, w2)
      ∧ status (response (ctx w2)) = Some 401
      ∧ next_calls w2 = next_calls w.
Proof.
  intros Hd Hdev. cbv zeta. rewrite logout_run by done. cbn [snd].
  assert (Hid : identity_slot this
                  (ctx (after (redirect (JString (cas_url this +:+ "/logout?" +:+
                                  (if truthy (logout_redirect_url this)
                                   then "service=" +:+ to_string (logout_redirect_url this)
                                   else ""))))
                          (after (if truthy (session_info this)
                                  then session_delete (to_string (session_info this))
                                  else mret tt)
                             (after (session_delete (to_string (session_name this))) w))))
                = JUndefined).
  { unfold identity_slot, session_delete. run_M.
    destruct (truthy (session_info this)); proj_M.
    - destruct (decide (to_string (session_info this) = to_string (session_name this)))
        as [->|Hne].
      + now rewrite lookup_delete_eq.
      + now rewrite lookup_delete_ne, lookup_delete_eq.
    - now rewrite lookup_delete_eq. }
  split; [exact Hid|].
  eexists. split.
  { unfold _handle. rewrite run_bind. unfold session_get, read at 1.
    match goal with
    | |- context [default JUndefined (slots (session (ctx ?w0)) !! _)] =>
        fold (identity_slot this (ctx w0))
    end.
    rewrite Hid. cbn [truthy]. rewrite Hdev. reflexivity. }
  unfold session_delete. run_M. destruct (truthy (session_info this)); now split.
Qed.

(** X16. Without whole-session destruction, [logout] deletes the identity
    slot, and the attributes slot only when one is configured; every other
    slot of the session, the saved return URL among them, keeps its
    value. *)
Theorem logout_keeps_other_slots (this : Cas) (w : world St) (k : string) :
  destroy_session this = false →
  k ≠ to_string (session_name this) →
  truthy (session_info this) = false ∨ k ≠ to_string (session_info this) →
  slots (session (ctx (logout session_destroy this w).2)) !! k
  = slots (session (ctx w)) !! k.
Proof.
  intros Hd Hname Hinfo. rewrite logout_run by done. cbn [snd].
  unfold session_delete. run_M.
  destruct (truthy (session_info this)); proj_M.
  - destruct Hinfo as [|Hinfo]; [discriminate|].
    now rewrite !lookup_delete_ne.
  - now rewrite lookup_delete_ne.
Qed.

(** X17. An instance built without [session_info] and run in dev mode
    writes the dev attributes under the key "false". When whole-session
    destruction is off and the identity slot is not itself named "false",
    its [logout] does not delete them: after the dev short-circuit taken
    by a request without identity, and a logout, the identity is gone and
    the dev attributes are still in the session. *)
Theorem logout_leaves_dev_attributes (o : CAS_options) (this : Cas)
    (authType : AUTH_TYPE) (w : world St) :
  constructor url_parse (Some o) = Ret this →
  o_session_info o = JUndefined →
  is_dev_mode this = true →
  destroy_session this = false →
  truthy (identity_slot this (ctx w)) = false →
  to_string (session_name this) ≠ "false" →
  let w1 := (handle_after this authType w).2 in
  let w2 := (logout session_destroy this w1).2 in
  slots (session (ctx w2)) !! "false" = Some (dev_mode_info this)
  ∧ identity_slot this (ctx w2) = JUndefined.
Proof.
  intros Hc Ho Hdev Hd Hid Hname. cbv zeta.
  pose proof (constructor_session_info_default url_parse o this Hc Ho) as Hinfo.
  rewrite logout_run by done. cbn [snd]. rewrite Hinfo. cbn [truthy].
  unfold _handle, identity_slot, session_delete in *. run_M.
  rewrite Hid, Hdev, Hinfo. proj_M. cbn [to_string].
  split.
  - rewrite lookup_delete_ne by done. now rewrite lookup_insert_eq.
  - now rewrite lookup_delete_eq.
Qed.
End LogoutProperties.

(** ** The logout notification handler, case by case *)

Section Reconciliation.
Context {St : Type} {store_ops : SessionStore St}.
Variable parseXML : jsval -> parse_result.

(** X18. A binding is found for the notified ticket and both destroys
    succeed: the bound session is destroyed first, then the binding, the
    handler returns with the body "ok", and the status is left alone. *)
Theorem single_logout_full_success (this : Cas) (w : world St)
    (st sessionResult key : jsval) (s1 s2 s3 : St) :
  single_logout this = true →
  names_ticket parseXML (ctx w) st →
  store_get st ONE_DAY (JObject []) (store w) = (Fulfilled sessionResult, s1) →
  truthy sessionResult = true →
  get_prop sessionResult "key" = Ret key →
  truthy key = true →
  store_destroy key s1 = (Fulfilled tt, s2) →
  store_destroy st s2 = (Fulfilled tt, s3) →
  ∃ w',
    handle_single_logout parseXML this w = (Ret tt, w')
    ∧ status (response (ctx w')) = status (response (ctx w))
    ∧ body (response (ctx w')) = Some "ok"
    ∧ store w' = s3.
Proof.
  intros Hslo (payload & result & lr & Hp & Hx & Hlr & Hst) Hget Hsr Hkey Htk Hd1 Hd2.
  rewrite (handle_single_logout_run parseXML this w payload result lr st) by done.
  eexists. split; [reflexivity|].
  unfold on_logout_parsed, downgrade. run_M. rewrite Hlr, Hst, Hget. proj_M.
  rewrite Hsr, Hkey. proj_M. rewrite Htk. proj_M. rewrite Hd1. proj_M.
  rewrite Hd2. proj_M. repeat split.
Qed.

(** X19. No binding is found for the notified ticket (the lookup gives
    nothing, or an entry without a [key]): the handler destroys the entry
    under the ticket itself and returns with the body "ok"; the status is
    left alone if that destroy succeeds and is 202 if it fails. *)
Theorem single_logout_without_binding (this : Cas) (w : world St)
    (st sessionResult : jsval) (s1 s2 : St) (outcome : settled unit) :
  single_logout this = true →
  names_ticket parseXML (ctx w) st →
  store_get st ONE_DAY (JObject []) (store w) = (Fulfilled sessionResult, s1) →
  truthy sessionResult = false
  ∨ (∃ key, get_prop sessionResult "key" = Ret key ∧ truthy key = false) →
  store_destroy st s1 = (outcome, s2) →
  ∃ w',
    handle_single_logout parseXML this w = (Ret tt, w')
    ∧ body (response (ctx w')) = Some "ok"
    ∧ store w' = s2
    ∧ status (response (ctx w'))
      = match outcome with
        | Fulfilled _ => status (response (ctx w))
        | Rejected _ => Some 202
        end.
Proof.
  intros Hslo (payload & result & lr & Hp & Hx & Hlr & Hst) Hget Hnone Hd.
  rewrite (handle_single_logout_run parseXML this w payload result lr st) by done.
  eexists. split; [reflexivity|].
  unfold on_logout_parsed, downgrade. run_M. rewrite Hlr, Hst, Hget. proj_M.
  assert (Hfound : (if truthy sessionResult
                    then match get_prop sessionResult "key" with
                         | Ret k => Ret (truthy k)
                         | Throw e => Throw e
                         | Pending => Pending
                         end
                    else Ret false) = Ret false).
  { destruct Hnone as [-> | (key & Hkey & Htk)]; [reflexivity|].
    rewrite Hkey, Htk. now destruct (truthy sessionResult). }
  destruct (truthy sessionResult); proj_M.
  - destruct (get_prop sessionResult "key") as [k| |]; try discriminate Hfound.
    injection Hfound as ->. proj_M. rewrite Hd. destruct outcome as [[]|e]; now proj_M.
  - rewrite Hd. destruct outcome as [[]|e]; now proj_M.
Qed.

(** X20. The first store operation that fails ends the reconciliation: if
    the lookup fails nothing is destroyed, and if destroying the bound
    session fails the binding is not destroyed either. Either way the
    handler returns with status 202 and the body "ok". *)
Theorem single_logout_stops_at_first_failure (this : Cas) (w : world St)
    (st : jsval) (s1 : St) :
  single_logout this = true →
  names_ticket parseXML (ctx w) st →
  (∃ e, store_get st ONE_DAY (JObject []) (store w) = (Rejected e, s1))
  ∨ (∃ sessionResult key s0 e,
       store_get st ONE_DAY (JObject []) (store w) = (Fulfilled sessionResult, s0)
       ∧ truthy sessionResult = true
       ∧ get_prop sessionResult "key" = Ret key
       ∧ truthy key = true
       ∧ store_destroy key s0 = (Rejected e, s1)) →
  ∃ w',
    handle_single_logout parseXML this w = (Ret tt, w')
    ∧ status (response (ctx w')) = Some 202
    ∧ body (response (ctx w')) = Some "ok"
    ∧ store w' = s1.
Proof.
  intros Hslo (payload & result & lr & Hp & Hx & Hlr & Hst) Hfail.
  rewrite (handle_single_logout_run parseXML this w payload result lr st) by done.
  eexists. split; [reflexivity|].
  unfold on_logout_parsed, downgrade. run_M. rewrite Hlr, Hst.
  destruct Hfail as [[e Hget] | (sessionResult & key & s0 & e & Hget & Hsr & Hkey & Htk & Hd)];
    rewrite Hget; proj_M; [now repeat split|].
  rewrite Hsr, Hkey. proj_M. rewrite Htk. proj_M. rewrite Hd. now proj_M.
Qed.

(** X21. A notification that names a ticket changes nothing but the store,
    the status and the body: the session of the request, the HTTP log and
    the redirect are left alone, the request is not passed on, and the
    status is either left alone or 202. *)
Theorem single_logout_frame (this : Cas) (w : world St) (st : jsval) :
  single_logout this = true →
  names_ticket parseXML (ctx w) st →
  ∃ w',
    handle_single_logout parseXML this w = (Ret tt, w')
    ∧ session (ctx w') = session (ctx w)
    ∧ http_log w' = http_log w
    ∧ next_calls w' = next_calls w
    ∧ redirect_to (response (ctx w')) = redirect_to (response (ctx w))
    ∧ (status (response (ctx w')) = status (response (ctx w))
       ∨ status (response (ctx w')) = Some 202).
Proof.
  intros Hslo (payload & result & lr & Hp & Hx & Hlr & Hst).
  rewrite (handle_single_logout_run parseXML this w payload result lr st) by done.
  eexists. split; [reflexivity|].
  unfold on_logout_parsed, downgrade. run_M. rewrite Hlr, Hst.
  destruct (store_get st ONE_DAY (JObject []) (store w)) as [[sessionResult|e] s1];
    proj_M; [|auto 10].
  destruct (truthy sessionResult) eqn:Hsr; proj_M.
  - destruct (truthy_get_prop sessionResult "key" Hsr) as [key ->]. proj_M.
    destruct (truthy key); proj_M.
    + destruct (store_destroy key s1) as [[[]|e] s2]; proj_M; [|auto 10].
      destruct (store_destroy st s2) as [[[]|e] s3]; proj_M; auto 10.
    + destruct (store_destroy st s1) as [[[]|e] s2]; proj_M; auto 10.
  - destruct (store_destroy st s1) as [[[]|e] s2]; proj_M; auto 10.
Qed.

End Reconciliation.

(** ** More worked examples *)

Lemma validate_v1_success_iff_witness :
  validate_v1 Fixture.v1_yes = Ret (CbOk (JString "alice") JUndefined).
Proof.
  apply validate_v1_success_iff. exists ("alice" +:+ String newline "").
  now repeat split.
Defined.

Lemma validate_v1_failure_iff_witness :
  validate_v1 ("no" +:+ String newline "") = Ret (CbErr "CAS authentication failed.")
  ∧ validate_v1 "maybe" = Ret (CbErr "Response from CAS server was bad.").
Proof.
  split.
  - apply (proj1 (validate_v1_failure_iff ("no" +:+ String newline ""))).
    right. now exists "".
  - apply (proj2 (validate_v1_failure_iff "maybe")).
    + intros rest H. cbn in H. discriminate H.
    + discriminate.
    + intros rest H. cbn in H. discriminate H.
Defined.

Lemma handleTicket_one_round_trip_witness :
  ∃ w',
    _handleTicket Sample.parseXML Sample.url_parse Sample.url_format
      Sample.unreachable 0 "1970-01-01T00:00:00.000Z" V3
      (Sample.cas V3 (JBool false) false false)
      (Sample.start Sample.ticket_request (RefStore ∅ [])) = (Ret tt, w')
    ∧ length (http_log w') = 2%nat
    ∧ next_calls w' = 0%nat.
Proof.
  destruct (handleTicket_one_round_trip Sample.parseXML Sample.url_parse
              Sample.url_format Sample.unreachable 0 "1970-01-01T00:00:00.000Z" V3
              (Sample.cas V3 (JBool false) false false)
              (Sample.start Sample.ticket_request (RefStore ∅ [])))
    as (w' & Hrun & Hlog & Hnext & _); [discriminate|].
  exists w'. rewrite Hlog. now repeat split.
Defined.

Lemma bounce_variants_agree_witness :
  bounce_redirect Sample.parseXML Sample.url_parse Sample.url_format
    Sample.unreachable 0 "1970-01-01T00:00:00.000Z" V3
    (Sample.cas V3 (JBool false) false false)
    (Sample.start Fixture.first_visit (RefStore ∅ []))
  = bounce Sample.parseXML Sample.url_parse Sample.url_format
      Sample.unreachable 0 "1970-01-01T00:00:00.000Z" V3
      (Sample.cas V3 (JBool false) false false)
      (Sample.start Fixture.first_visit (RefStore ∅ [])).
Proof. apply bounce_variants_agree. reflexivity. Defined.


Lemma dev_mode_default_user_never_authenticates_witness :
  ∃ this w',
    constructor Sample.url_parse (Some Fixture.dev_default_options) = Ret this
    ∧ _handle Sample.parseXML Sample.url_parse Sample.url_format
        Sample.unreachable 0 "1970-01-01T00:00:00.000Z" V3 this BOUNCE_REDIRECT
        (Sample.start Fixture.first_visit (RefStore ∅ [])) = (Ret tt, w')
    ∧ truthy (identity_slot this (ctx w')) = false.
Proof.
  eexists.
  destruct (dev_mode_default_user_never_authenticates Sample.parseXML Sample.url_parse
              Sample.url_format Sample.unreachable 0 "1970-01-01T00:00:00.000Z" V3
              Fixture.dev_default_options _ BOUNCE_REDIRECT
              (Sample.start Fixture.first_visit (RefStore ∅ []))
              eq_refl eq_refl eq_refl eq_refl)
    as (w' & Hrun & _ & Hdiff & _).
  exists w'. split; [reflexivity|]. split; [exact Hrun|].
  apply Hdiff. discriminate.
Defined.

Lemma single_logout_disabled_never_touches_store_witness :
  store (_handle Sample.parseXML Sample.url_parse Sample.url_format
           (Sample.answers "v2-success") 0 "1970-01-01T00:00:00.000Z" V3
           (Sample.cas V3 (JBool false) false false) BOUNCE
           (Sample.start Sample.ticket_request (Sample.session_store []))).2
  = Sample.session_store [].
Proof.
  apply (single_logout_disabled_never_touches_store Sample.parseXML Sample.url_parse
           Sample.url_format (Sample.answers "v2-success") 0
           "1970-01-01T00:00:00.000Z" V3 (Sample.cas V3 (JBool false) false false)
           BOUNCE (Sample.start Sample.ticket_request (Sample.session_store []))).
  reflexivity.
Defined.

Lemma login_round_trip_witness :
  ∃ w',
    _handle Sample.parseXML Sample.url_parse Sample.url_format
      (Sample.answers "v2-success") 0 "1970-01-01T00:00:00.000Z" V3
      (Sample.cas V3 (JString "cas_info") false false) BOUNCE
      (Sample.start Fixture.returning (RefStore ∅ [])) = (Ret tt, w')
    ∧ identity_slot (Sample.cas V3 (JString "cas_info") false false) (ctx w')
      = JString "alice"
    ∧ redirect_to (response (ctx w')) = Some (JString "/home?x=1").
Proof.
  apply (login_round_trip Sample.parseXML Sample.url_parse Sample.url_format
           (Sample.answers "v2-success") 0 "1970-01-01T00:00:00.000Z" V3
           (Sample.cas V3 (JString "cas_info") false false) BOUNCE BOUNCE
           (Sample.start Fixture.first_visit (RefStore ∅ []))
           (Sample.start Fixture.returning (RefStore ∅ []))
           "v2-success" (JString "alice") Sample.alice_attributes).
  - repeat split. discriminate.
  - reflexivity.
  - vm_compute. reflexivity.
  - discriminate.
  - reflexivity.
  - discriminate.
  - reflexivity.
  - reflexivity.
  - reflexivity.
  - discriminate.
  - intros _. split; discriminate.
Defined.

Lemma saml_ticket_requests_always_reject_witness :
  _handle Sample.parseXML Sample.url_parse Sample.url_format
    Sample.unreachable 0 "1970-01-01T00:00:00.000Z" SAML1_1
    (Sample.cas SAML1_1 (JString "cas_info") false true) BOUNCE_REDIRECT
    (Sample.start Fixture.returning (Sample.session_store []))
  = (Throw (ReferenceError "req"),
     Sample.start Fixture.returning (Sample.session_store [])).
Proof.
  apply saml_ticket_requests_always_reject; [reflexivity | | reflexivity].
  repeat split. discriminate.
Defined.

Lemma logout_then_block_witness :
  ∃ w2,
    _handle Sample.parseXML Sample.url_parse Sample.url_format
      Sample.unreachable 0 "1970-01-01T00:00:00.000Z" V3
      (Sample.cas V3 (JString "cas_info") false false) BLOCK
      (logout Fixture.emptying (Sample.cas V3 (JString "cas_info") false false)
         (Sample.start Fixture.member_request (RefStore ∅ []))).2 = (Ret tt, w2)
    ∧ status (response (ctx w2)) = Some 401.
Proof.
  destruct (logout_then_block Fixture.emptying Sample.parseXML Sample.url_parse
              Sample.url_format Sample.unreachable 0 "1970-01-01T00:00:00.000Z" V3
              (Sample.cas V3 (JString "cas_info") false false)
              (Sample.start Fixture.member_request (RefStore ∅ [])) eq_refl eq_refl)
    as (_ & w2 & Hrun & Hstatus & _).
  exists w2. now split.
Defined.

Lemma logout_keeps_other_slots_witness :
  slots (session (ctx (logout Fixture.emptying
                         (Sample.cas V3 (JString "cas_info") false false)
                         (Sample.start Fixture.member_request (RefStore ∅ []))).2))
    !! "cart" = Some (JString "3 items").
Proof.
  rewrite (logout_keeps_other_slots (St := ref_store) Fixture.emptying
             (Sample.cas V3 (JString "cas_info") false false)
             (Sample.start Fixture.member_request (RefStore ∅ [])) "cart" eq_refl).
  - reflexivity.
  - discriminate.
  - right. discriminate.
Defined.

Lemma logout_leaves_dev_attributes_witness :
  ∃ this,
    constructor Sample.url_parse (Some Fixture.dev_default_options) = Ret this
    ∧ slots (session (ctx
        (logout Fixture.emptying this
           (_handle Sample.parseXML Sample.url_parse Sample.url_format
              Sample.unreachable 0 "1970-01-01T00:00:00.000Z" V3 this BOUNCE
              (Sample.start Fixture.first_visit (RefStore ∅ []))).2).2)) !! "false"
      = Some (JObject [("role", JString "tester")]).
Proof.
  eexists. split; [reflexivity|].
  refine (proj1 (logout_leaves_dev_attributes Fixture.emptying Sample.parseXML
                   Sample.url_parse Sample.url_format Sample.unreachable 0
                   "1970-01-01T00:00:00.000Z" V3 Fixture.dev_default_options _ BOUNCE
                   (Sample.start Fixture.first_visit (RefStore ∅ []))
                   eq_refl eq_refl eq_refl eq_refl eq_refl _)).
  discriminate.
Defined.

Lemma single_logout_full_success_witness :
  ∃ w',
    handle_single_logout Sample.parseXML (Sample.cas V3 (JBool false) false true)
      (Sample.start (Sample.notification (JString "slo ST-1")) (Sample.bound_store []))
    = (Ret tt, w')
    ∧ status (response (ctx w')) = None
    ∧ body (response (ctx w')) = Some "ok"
    ∧ entries (store w') = ∅.
Proof.
  destruct (single_logout_full_success Sample.parseXML
              (Sample.cas V3 (JBool false) false true)
              (Sample.start (Sample.notification (JString "slo ST-1"))
                 (Sample.bound_store []))
              (JString "ST-1") (JObject [("key", JString "sess-9")]) (JString "sess-9")
              (Sample.bound_store [])
              (RefStore (delete "sess-9" (entries (Sample.bound_store []))) [])
              (RefStore (delete "ST-1" (delete "sess-9" (entries (Sample.bound_store [])))) []))
    as (w' & Hrun & Hstatus & Hbody & Hstore).
  - reflexivity.
  - exists (JString "slo ST-1"), (Sample.logout_doc "ST-1"). eexists.
    repeat split; reflexivity.
  - vm_compute. reflexivity.
  - reflexivity.
  - reflexivity.
  - reflexivity.
  - vm_compute. reflexivity.
  - vm_compute. reflexivity.
  - exists w'. rewrite Hstore. now repeat split.
Defined.

Lemma single_logout_without_binding_witness :
  ∃ w',
    handle_single_logout Sample.parseXML (Sample.cas V3 (JBool false) false true)
      (Sample.start (Sample.notification (JString "slo ST-1")) (Sample.session_store []))
    = (Ret tt, w')
    ∧ body (response (ctx w')) = Some "ok"
    ∧ status (response (ctx w')) = None.
Proof.
  destruct (single_logout_without_binding Sample.parseXML
              (Sample.cas V3 (JBool false) false true)
              (Sample.start (Sample.notification (JString "slo ST-1"))
                 (Sample.session_store []))
              (JString "ST-1") JNull (Sample.session_store []) (Sample.session_store [])
              (Fulfilled tt))
    as (w' & Hrun & Hbody & _ & Hstatus).
  - reflexivity.
  - exists (JString "slo ST-1"), (Sample.logout_doc "ST-1"). eexists.
    repeat split; reflexivity.
  - vm_compute. reflexivity.
  - now left.
  - vm_compute. reflexivity.
  - exists w'. now repeat split.
Defined.

Lemma single_logout_stops_at_first_failure_witness :
  ∃ w',
    handle_single_logout Sample.parseXML (Sample.cas V3 (JBool false) false true)
      (Sample.start (Sample.notification (JString "slo ST-1"))
         (Sample.bound_store [false; true]))
    = (Ret tt, w')
    ∧ status (response (ctx w')) = Some 202
    ∧ entries (store w') = entries (Sample.bound_store []).
Proof.
  destruct (single_logout_stops_at_first_failure Sample.parseXML
              (Sample.cas V3 (JBool false) false true)
              (Sample.start (Sample.notification (JString "slo ST-1"))
                 (Sample.bound_store [false; true]))
              (JString "ST-1") (Sample.bound_store []))
    as (w' & Hrun & Hstatus & _ & Hstore).
  - reflexivity.
  - exists (JString "slo ST-1"), (Sample.logout_doc "ST-1"). eexists.
    repeat split; reflexivity.
  - right. exists (JObject [("key", JString "sess-9")]), (JString "sess-9"),
      (Sample.bound_store [true]), (Fault "store.destroy").
    repeat split; vm_compute; reflexivity.
  - exists w'. rewrite Hstore. now repeat split.
Defined.

Lemma single_logout_frame_witness :
  ∃ w',
    handle_single_logout Sample.parseXML (Sample.cas V3 (JBool false) false true)
      (Sample.start (Sample.notification (JString "slo ST-1")) (Sample.bound_store [true]))
    = (Ret tt, w')
    ∧ http_log w' = []
    ∧ next_calls w' = 0%nat.
Proof.
  destruct (single_logout_frame Sample.parseXML (Sample.cas V3 (JBool false) false true)
              (Sample.start (Sample.notification (JString "slo ST-1"))
                 (Sample.bound_store [true])) (JString "ST-1"))
    as (w' & Hrun & _ & Hlog & Hnext & _).
  - reflexivity.
  - exists (JString "slo ST-1"), (Sample.logout_doc "ST-1"). eexists.
    repeat split; reflexivity.
  - exists w'. now repeat split.
Defined.


Lemma logout_redirects_to_cas_witness :
  (∃ w',
     logout Fixture.emptying (Sample.cas V3 (JString "cas_info") false false)
       (Sample.start Fixture.member_request (Sample.bound_store [])) = (Ret tt, w')
     ∧ redirect_to (response (ctx w'))
       = Some (JString (cas_url (Sample.cas V3 (JString "cas_info") false false)
                        +:+ "/logout?"))
     ∧ store w' = Sample.bound_store []).
Proof.
  destruct (proj1 (logout_redirects_to_cas Fixture.emptying
                     (Sample.cas V3 (JString "cas_info") false false)
                     (Sample.start Fixture.member_request (Sample.bound_store []))
                     "" (or_introl eq_refl)) eq_refl)
    as (w' & Hrun & Hto & Hstore & _).
  exists w'. split; [exact Hrun|]. split; [exact Hto | exact Hstore].
Defined.

Lemma request_never_writes_witness :
  http_log (_request (Sample.answers "v2-success")
              (Sample.cas V3 (JString "cas_info") false false)
              (get_request Sample.url_parse Sample.url_format V3
                 (Sample.cas V3 (JString "cas_info") false false) Fixture.returning)
              (Sample.start Fixture.returning (RefStore ∅ []))).2
  = Opened (get_request Sample.url_parse Sample.url_format V3
              (Sample.cas V3 (JString "cas_info") false false) Fixture.returning)
    :: [Ended].
Proof.
  pose proof (request_never_writes (St := ref_store) (Sample.answers "v2-success")
                (Sample.cas V3 (JString "cas_info") false false)
                (get_request Sample.url_parse Sample.url_format V3
                   (Sample.cas V3 (JString "cas_info") false false) Fixture.returning)
                (Sample.start Fixture.returning (RefStore ∅ [])))
    as (_ & _ & _ & H).
  refine (proj1 (H _)). discriminate.
Defined.
